(** * bed_calc_4: NHS vs Darwin bed cost calculator

    A shallow embedding of [bed_calc_4.py].  The script is a Streamlit page:
    it reads seven sidebar inputs, looks a ward up in a static cost table,
    computes a cost comparison with three small functions and renders the
    result as metrics, text lines and a one-row CSV report.

    Numbers are modelled as Python has them: unbounded integers and IEEE-754
    binary64 floats (the kernel's primitive floats), with Python's coercion
    rules between the two.  Exceptions are values of an error monad. *)

From Stdlib Require Import ZArith Lia List String Ascii Bool Floats DecimalString.
Import ListNotations.

Set Warnings "-inexact-float".

Local Open Scope string_scope.
Local Open Scope Z_scope.

(** ** Exceptions *)

Inductive exn : Type :=
| KeyError (key : string)
| IndexError
| ZeroDivisionError.

Inductive result (A : Type) : Type :=
| Ok (a : A)
| Raise (e : exn).

Arguments Ok {A} a.
Arguments Raise {A} e.

(** Sequencing, shared by the pure calculations (which may raise) and the
    page script (which may raise and also writes to the page). *)
Class Monad (M : Type -> Type) : Type := {
  ret : forall {A : Type}, A -> M A;
  bind : forall {A B : Type}, M A -> (A -> M B) -> M B
}.

Notation "x <- c ;; k" := (bind c (fun x => k))
  (at level 61, c at next level, right associativity).
Notation "c ;;; k" := (bind c (fun _ => k))
  (at level 61, right associativity).

#[export] Instance result_monad : Monad result := {
  ret := @Ok;
  bind := fun A B (c : result A) (k : A -> result B) =>
    match c with
    | Ok a => k a
    | Raise e => Raise e
    end
}.

(** ** Python numbers *)

Module Py.

(** [int] and [float] values.  NumPy's [int64] and [float64] scalars, which
    the table rows hold, behave as these on the magnitudes of this program
    (every integer is below [2^53]).

    The float operations are Python's on every float.  On integers the
    model is Python's as long as they convert to floats exactly, that is up
    to [2^53] in magnitude: beyond, Python divides two integers by rounding
    the exact quotient once, compares an integer with a float exactly, and
    raises OverflowError for an integer beyond the float range, none of which
    is followed here.  Statements about arbitrary integers carry that bound
    as a hypothesis. *)
Inductive num : Type :=
| Int (z : Z)
| Float (f : float).

(** [float(z)]: the integer rounded to the nearest binary64 value, ties to
    even; exact up to [2^53].  Python raises OverflowError where this gives
    an infinity. *)
Definition float_of_Z (z : Z) : float :=
  SF2Prim (binary_normalize prec emax z 0 false).

Definition to_float (a : num) : float :=
  match a with
  | Int z => float_of_Z z
  | Float f => f
  end.

(** [a + b], [a - b], [a * b]: integer arithmetic on two integers, float
    arithmetic as soon as one operand is a float. *)
Definition add (a b : num) : num :=
  match a, b with
  | Int x, Int y => Int (x + y)
  | _, _ => Float (to_float a + to_float b)
  end.

Definition sub (a b : num) : num :=
  match a, b with
  | Int x, Int y => Int (x - y)
  | _, _ => Float (to_float a - to_float b)
  end.

Definition mul (a b : num) : num :=
  match a, b with
  | Int x, Int y => Int (x * y)
  | _, _ => Float (to_float a * to_float b)
  end.

(** [a == 0], which is also [not a]: both float zeros are zero, NaN is not. *)
Definition is_zero (a : num) : bool :=
  match a with
  | Int z => z =? 0
  | Float f => PrimFloat.eqb f 0%float
  end.

(** Truth value of a number in a condition. *)
Definition truthy (a : num) : bool := negb (is_zero a).

(** [a / b]: true division, always a float; a zero divisor raises.  The
    operands are converted first, which is Python's quotient for floats and
    for integers up to [2^53]. *)
Definition truediv (a b : num) : result num :=
  if is_zero b then Raise ZeroDivisionError
  else Ok (Float (to_float a / to_float b)).

(** [a == b]; an integer is converted before it is compared with a float,
    which is Python's answer for integers up to [2^53]. *)
Definition eqb (a b : num) : bool :=
  match a, b with
  | Int x, Int y => x =? y
  | _, _ => PrimFloat.eqb (to_float a) (to_float b)
  end.

(** [a < b] *)
Definition ltb (a b : num) : bool :=
  match a, b with
  | Int x, Int y => x <? y
  | _, _ => PrimFloat.ltb (to_float a) (to_float b)
  end.

(** [abs(a)] *)
Definition abs (a : num) : num :=
  match a with
  | Int z => Int (Z.abs z)
  | Float f => Float (PrimFloat.abs f)
  end.

End Py.

Import Py.

(** ** Cost data *)

(** The [data] dictionary, one list per column. *)
Definition care_type_col : list string :=
  [ "General Ward"; "Surgical Ward"; "Critical Care"; "Maternity Ward";
    "Paediatrics"; "Orthopaedics"; "Oncology"; "Cardiovascular"; "ENT";
    "Neurology"; "Psychiatric"; "Specialised Ward" ].

Definition nhs_capital_cost_col : list float :=
  [ 80.63; 278.29; 77.96; 54.55; 61.82; 57.98;
    65.75; 65.75; 57.98; 65.75; 45.68; 63.94 ]%float.

Definition nhs_maintenance_cost_col : list float :=
  [ 12.20; 15.58; 5.48; 3.41; 4.05; 3.62;
    4.38; 4.60; 3.93; 4.38; 2.74; 4.26 ]%float.

Definition area_per_bed_col : list Z :=
  [ 32; 40; 40; 32; 35; 34;
    36; 36; 34; 36; 30; 35 ].

(** A row of the data frame [df], with the derived column
    ["NHS Total Cost Per Night"]. *)
Record ward_row : Type := {
  care_type : string;
  nhs_capital_cost : num;
  nhs_maintenance_cost : num;
  area_per_bed : num;
  nhs_total_cost_per_night : num
}.

Fixpoint frame (names : list string) (caps maints : list float) (areas : list Z)
  : list ward_row :=
  match names, caps, maints, areas with
  | n :: names', c :: caps', m :: maints', a :: areas' =>
      {| care_type := n;
         nhs_capital_cost := Float c;
         nhs_maintenance_cost := Float m;
         area_per_bed := Int a;
         nhs_total_cost_per_night := add (Float c) (Float m) |}
      :: frame names' caps' maints' areas'
  | _, _, _, _ => []
  end.

Definition df : list ward_row :=
  frame care_type_col nhs_capital_cost_col nhs_maintenance_cost_col area_per_bed_col.

(** ** Functions *)

(** The dictionary literal of [get_timeframe_days]. *)
Definition timeframe_days_dict : list (string * Z) :=
  [ ("Daily", 1); ("5 Years", 1825); ("10 Years", 3650);
    ("15 Years", 5475); ("60 Years", 21900) ].

(** [d[key]] on a dictionary given by its items: the value, or [KeyError]. *)
Fixpoint getitem (d : list (string * Z)) (key : string) : result Z :=
  match d with
  | [] => Raise (KeyError key)
  | (k, v) :: d' => if String.eqb k key then Ok v else getitem d' key
  end.

Definition get_timeframe_days (label : string) : result Z :=
  getitem timeframe_days_dict label.

Definition calculate_effective_nights (nights occ_rate tf_days : num) : result num :=
  if eqb tf_days (Int 1) then Ok nights
  else
    r <- truediv occ_rate (Int 100) ;;
    Ok (mul tf_days r).

(** The five values [calculate_costs] returns, in order. *)
Record costs : Type := {
  nhs_night : num;
  total_nhs : num;
  total_darwin : num;
  savings : num;
  percent_savings : num
}.

Definition calculate_costs (cap maint darwin beds nights : num) : result costs :=
  let nhs_night := add cap maint in
  let total_nhs := mul (mul nhs_night beds) nights in
  let total_darwin := mul (mul darwin beds) nights in
  let savings := sub total_nhs total_darwin in
  percent_savings <-
    (if truthy total_nhs then
       q <- truediv savings total_nhs ;;
       Ok (mul q (Int 100))
     else Ok (Int 0)) ;;
  Ok {| nhs_night := nhs_night;
        total_nhs := total_nhs;
        total_darwin := total_darwin;
        savings := savings;
        percent_savings := percent_savings |}.

(** ** Sidebar inputs *)

(** The values the sidebar widgets return: integers from the widgets created
    with integer bounds, a float from the one created with float bounds. *)
Record inputs : Type := {
  selected_ward : string;
  num_beds : Z;
  num_nights : Z;
  occupancy_rate : Z;
  timeframe : string;
  darwin_cost_input : float;
  sqm_cost : Z
}.

(** ** Calculations *)

(** [df[df["Care Type"] == ward]] *)
Definition select_ward (ward : string) : list ward_row :=
  filter (fun r => String.eqb (care_type r) ward) df.

(** [.iloc[0]] *)
Definition iloc0 (rows : list ward_row) : result ward_row :=
  match rows with
  | [] => Raise IndexError
  | r :: _ => Ok r
  end.

(** The capital cost switch for the 60-year model. *)
Definition capital_cost_switch (timeframe : string) (sqm_cost area : num) (row : ward_row)
  : result num :=
  if String.eqb timeframe "60 Years" then
    x <- truediv (mul sqm_cost area) (Int 60) ;;
    truediv x (mul (Int 365) (Float 0.9))
  else Ok (nhs_capital_cost row).

(** The variables the "Calculations" section of the script binds. *)
Record calc : Type := {
  row : ward_row;
  area : num;
  timeframe_days : Z;
  effective_nights : num;
  capital_cost : num;
  cost : costs
}.

Definition calculations (i : inputs) : result calc :=
  row <- iloc0 (select_ward (selected_ward i)) ;;
  let area := area_per_bed row in
  timeframe_days <- get_timeframe_days (timeframe i) ;;
  effective_nights <-
    calculate_effective_nights (Int (num_nights i)) (Int (occupancy_rate i))
      (Int timeframe_days) ;;
  capital_cost <- capital_cost_switch (timeframe i) (Int (sqm_cost i)) area row ;;
  cost <-
    calculate_costs capital_cost (nhs_maintenance_cost row)
      (Float (darwin_cost_input i)) (Int (num_beds i)) effective_nights ;;
  Ok {| row := row;
        area := area;
        timeframe_days := timeframe_days;
        effective_nights := effective_nights;
        capital_cost := capital_cost;
        cost := cost |}.

(** ** Fixed-point formatting *)

(** [n / d] rounded to the nearest integer, ties to even ([d] positive). *)
Definition round_half_even (n d : Z) : Z :=
  let q := n / d in
  match 2 * (n mod d) ?= d with
  | Lt => q
  | Gt => q + 1
  | Eq => if Z.even q then q else q + 1
  end.

(** [m * 2^e * 10^digits], correctly rounded to an integer. *)
Definition scaled (digits : nat) (m : positive) (e : Z) : Z :=
  let n := Zpos m * 10 ^ Z.of_nat digits in
  if 0 <=? e then n * 2 ^ e else round_half_even n (2 ^ (- e)).

Definition decimal (n : Z) : string :=
  NilZero.string_of_uint (N.to_uint (Z.to_N n)).

(** The last [digits] decimal digits of [n], with leading zeros. *)
Fixpoint fraction (digits : nat) (n : Z) : string :=
  match digits with
  | O => ""
  | S d => fraction d (n / 10) ++ decimal (n mod 10)
  end.

(** Thousands separators, on the digits from the least significant one. *)
Fixpoint commas (rev_digits : list ascii) (k : nat) : list ascii :=
  match rev_digits with
  | [] => []
  | c :: rest =>
      match k with
      | 3%nat => ","%char :: c :: commas rest 1
      | _ => c :: commas rest (S k)
      end
  end.

Definition grouped (s : string) : string :=
  string_of_list_ascii (rev (commas (rev (list_ascii_of_string s)) 0)).

Definition fixed (grouping : bool) (digits : nat) (n : Z) : string :=
  let whole := decimal (n / 10 ^ Z.of_nat digits) in
  (if grouping then grouped whole else whole)
  ++ match digits with
     | O => ""
     | _ => "." ++ fraction digits n
     end.

(** [format(x, ",.<digits>f")] when [grouping] is set, [format(x, ".<digits>f")]
    otherwise: the exact value of the float, rounded to [digits] decimals
    with ties to even. *)
Definition format_f (grouping : bool) (digits : nat) (x : num) : string :=
  match Prim2SF (to_float x) with
  | S754_nan => "nan"
  | S754_infinity s => (if s then "-" else "") ++ "inf"
  | S754_zero s => (if s then "-" else "") ++ fixed grouping digits 0
  | S754_finite s m e =>
      (if s then "-" else "") ++ fixed grouping digits (scaled digits m e)
  end.

(** ** The page *)

(** A cell of the report: text, or a number kept as computed.  [to_csv]
    prints a float with [repr], the shortest text that reads back as the same
    binary64 value, so a [Number] cell stands for its full-precision text. *)
Inductive cell : Type :=
| Text (s : string)
| Number (n : num).

Record data_frame : Type := {
  columns : list string;
  rows : list (list cell)
}.

(** [pd.DataFrame(d)] for a dictionary of equally long columns, in the
    order of the dictionary's keys. *)
Definition DataFrame (d : list (string * list cell)) : data_frame :=
  {| columns := map fst d;
     rows :=
       match d with
       | [] => []
       | (_, c) :: _ =>
           map (fun k => map (fun col => nth k (snd col) (Text "")) d)
               (seq 0 (List.length c))
       end |}.

(** [to_csv(index=False)]: the header line, then one line per row. *)
Definition to_csv (f : data_frame) : list (list cell) :=
  map Text (columns f) :: rows f.

(** What the script puts on the page from the occupancy check to the
    download button, in order.  What it writes before (the page title, the
    dated caption, the sidebar header and the widgets) and after (the rule
    and the assumptions text, which quotes the build cost for every timeframe
    and is reached only when the calculations went through) is not part of
    this model of the page. *)
Inductive element : Type :=
| sidebar_warning (body : string)
| subheader (body : string)
| metric (label value : string) (delta : option string)
| markdown (body : string)
| write (body : string)
| pyplot (title ylabel : string) (bars : list (string * num))
| download_button (label : string) (data : list (list cell)) (file_name mime : string).

(** A run of the script: the elements written so far are threaded through,
    and an exception stops the run with what was written before it. *)
Definition page (A : Type) : Type := list element -> result A * list element.

#[export] Instance page_monad : Monad page := {
  ret := fun A (a : A) out => (Ok a, out);
  bind := fun A B (c : page A) (k : A -> page B) out =>
    match c out with
    | (Ok a, out') => k a out'
    | (Raise e, out') => (Raise e, out')
    end
}.

Definition emit (e : element) : page unit :=
  fun out => (Ok tt, (out ++ [e])%list).

Definition lift {A : Type} (r : result A) : page A :=
  fun out => (r, out).

Definition pound : string := "£".

Definition report_df (i : inputs) (c : calc) : data_frame :=
  DataFrame
    [ ("Ward Type", [Text (selected_ward i)]);
      ("Beds", [Number (Int (num_beds i))]);
      ("Nights (Adjusted)", [Number (effective_nights c)]);
      ("NHS per Night (£)", [Number (nhs_night (cost c))]);
      ("Darwin per Night (£)", [Number (Float (darwin_cost_input i))]);
      ("NHS Total (£)", [Number (total_nhs (cost c))]);
      ("Darwin Total (£)", [Number (total_darwin (cost c))]);
      ("Savings (£)", [Number (savings (cost c))]);
      ("% Savings", [Number (percent_savings (cost c))]) ].

Definition occupancy_warning : string :=
  "Warning: NHS beds typically operate above 85% occupancy.".

Definition occupancy_check (i : inputs) : page unit :=
  if ltb (Int (occupancy_rate i)) (Int 70)
  then emit (sidebar_warning occupancy_warning)
  else ret tt.

Definition summary_display (i : inputs) (c : calc) : page unit :=
  let k := cost c in
  emit (subheader ("Cost Summary for: " ++ selected_ward i)) ;;;
  emit (metric "NHS Total Cost" (pound ++ format_f true 2 (total_nhs k)) None) ;;;
  emit (metric "Darwin Total Cost" (pound ++ format_f true 2 (total_darwin k)) None) ;;;
  emit (metric "Estimated Savings" (pound ++ format_f true 2 (abs (savings k)))
          (Some ((if ltb (Int 0) (savings k) then "-" else "+")
                 ++ pound ++ format_f true 2 (abs (savings k))))) ;;;
  emit (metric "% Savings" (format_f false 1 (percent_savings k) ++ "%") None) ;;;
  emit (markdown "### Detailed NHS Cost Breakdown (per bed per night)") ;;;
  emit (write ("• Capital Cost: £" ++ format_f false 2 (capital_cost c))) ;;;
  emit (write ("• Maintenance Cost: £" ++ format_f false 2 (nhs_maintenance_cost (row c)))) ;;;
  emit (write ("• Total NHS Cost: £" ++ format_f false 2 (nhs_night k))) ;;;
  emit (write ("• Darwin Flat Cost: £" ++ format_f false 2 (Float (darwin_cost_input i)))).

Definition charts (i : inputs) (c : calc) : page unit :=
  let k := cost c in
  emit (subheader "Cost per Bed per Night") ;;;
  emit (pyplot "Unit Cost Comparison" "£ per Bed per Night"
          [("NHS", nhs_night k); ("Darwin", Float (darwin_cost_input i))]) ;;;
  emit (subheader "Total Cost Comparison") ;;;
  emit (pyplot ("Total Cost for " ++ selected_ward i ++ " (" ++ timeframe i ++ ")")
          "Total Cost (£)"
          [("NHS", total_nhs k); ("Darwin", total_darwin k)]).

Definition download_report (i : inputs) (c : calc) : page unit :=
  emit (markdown "Download Report") ;;;
  emit (download_button "Download CSV Report" (to_csv (report_df i c))
          "bed_cost_comparison_report.csv" "text/csv").

(** What the script does once the occupancy check is behind it. *)
Definition body (i : inputs) : page unit :=
  c <- lift (calculations i) ;;
  summary_display i c ;;;
  charts i c ;;;
  download_report i c.

(** The script from the occupancy check to the download button; the
    assumptions text that closes the page is not modelled. *)
Definition script (i : inputs) : page unit :=
  occupancy_check i ;;;
  body i.

(** ** Inputs the widgets can return *)

(** The options of the timeframe select box. *)
Definition timeframe_options : list string :=
  [ "Daily"; "5 Years"; "10 Years"; "15 Years"; "60 Years" ].

Definition mem (s : string) (l : list string) : bool :=
  existsb (String.eqb s) l.

(** The ward is one of [df["Care Type"].unique()], the timeframe one of the
    select box's options, and every number lies between the [min_value] and
    the [max_value] of its widget. *)
Definition valid_inputs (i : inputs) : bool :=
  mem (selected_ward i) care_type_col
  && ((1 <=? num_beds i) && (num_beds i <=? 100))
  && ((1 <=? num_nights i) && (num_nights i <=? 365))
  && ((50 <=? occupancy_rate i) && (occupancy_rate i <=? 100))
  && mem (timeframe i) timeframe_options
  && (PrimFloat.leb 50 (darwin_cost_input i) && PrimFloat.leb (darwin_cost_input i) 200)
  && ((1500 <=? sqm_cost i) && (sqm_cost i <=? 4000)).

(** The default inputs of the widgets. *)
Definition default_inputs : inputs :=
  {| selected_ward := "General Ward";
     num_beds := 10;
     num_nights := 30;
     occupancy_rate := 90;
     timeframe := "Daily";
     darwin_cost_input := 80%float;
     sqm_cost := 2500 |}.

(** The same inputs with the occupancy slider moved. *)
Definition with_occupancy (i : inputs) (occ : Z) : inputs :=
  {| selected_ward := selected_ward i;
     num_beds := num_beds i;
     num_nights := num_nights i;
     occupancy_rate := occ;
     timeframe := timeframe i;
     darwin_cost_input := darwin_cost_input i;
     sqm_cost := sqm_cost i |}.

(** ** Reading the page back *)

(** The value text of the first metric with a given label. *)
Fixpoint metric_value (label : string) (out : list element) : option string :=
  match out with
  | [] => None
  | metric l v _ :: rest =>
      if String.eqb l label then Some v else metric_value label rest
  | _ :: rest => metric_value label rest
  end.

(** The delta text of the first metric with a given label. *)
Fixpoint metric_delta (label : string) (out : list element) : option string :=
  match out with
  | [] => None
  | metric l _ d :: rest =>
      if String.eqb l label then d else metric_delta label rest
  | _ :: rest => metric_delta label rest
  end.

Definition is_download (e : element) : bool :=
  match e with
  | download_button _ _ _ _ => true
  | _ => false
  end.

(** The lines of the report the download button offers. *)
Fixpoint downloaded (out : list element) : list (list cell) :=
  match out with
  | [] => []
  | download_button _ data _ _ :: _ => data
  | _ :: rest => downloaded rest
  end.

Fixpoint index_of (name : string) (header : list cell) : option nat :=
  match header with
  | [] => None
  | Text s :: rest =>
      if String.eqb s name then Some O else option_map S (index_of name rest)
  | Number _ :: rest => option_map S (index_of name rest)
  end.

(** The cells under a column name, one per data line. *)
Definition csv_column (data : list (list cell)) (name : string) : list (option cell) :=
  match data with
  | [] => []
  | header :: records =>
      match index_of name header with
      | None => []
      | Some k => map (fun record => nth_error record k) records
      end
  end.

(** [x.is_integer()], with every [int] an integer. *)
Definition is_integer (a : num) : bool :=
  match a with
  | Int _ => true
  | Float f =>
      match Prim2SF f with
      | S754_zero _ => true
      | S754_finite _ m e => (0 <=? e) || (Zpos m mod 2 ^ (- e) =? 0)
      | _ => false
      end
  end.

(** The summary shows the export: every numeric column of the export that
    has a counterpart in the summary is shown there, as the text of the
    exported number in the counterpart's format (two decimals, one for the
    percentage).  Rounding to the displayed decimals is taken as part of
    showing a value.  [view] is what the summary makes of the exported
    savings before showing them. *)
Definition summary_shows_export (view : num -> num) (out : list element) : Prop :=
  let data := downloaded out in
  (forall v, csv_column data "NHS per Night (£)" = [Some (Number v)] ->
             In (write ("• Total NHS Cost: £" ++ format_f false 2 v)) out)
  /\ (forall v, csv_column data "Darwin per Night (£)" = [Some (Number v)] ->
                In (write ("• Darwin Flat Cost: £" ++ format_f false 2 v)) out)
  /\ (forall v, csv_column data "NHS Total (£)" = [Some (Number v)] ->
                metric_value "NHS Total Cost" out = Some (pound ++ format_f true 2 v))
  /\ (forall v, csv_column data "Darwin Total (£)" = [Some (Number v)] ->
                metric_value "Darwin Total Cost" out = Some (pound ++ format_f true 2 v))
  /\ (forall v, csv_column data "Savings (£)" = [Some (Number v)] ->
                metric_value "Estimated Savings" out
                = Some (pound ++ format_f true 2 (view v)))
  /\ (forall v, csv_column data "% Savings" = [Some (Number v)] ->
                metric_value "% Savings" out = Some (format_f false 1 v ++ "%")).

(** The calculation with other effective nights in the variable. *)
Definition with_effective_nights (c : calc) (n : num) : calc :=
  {| row := row c;
     area := area c;
     timeframe_days := timeframe_days c;
     effective_nights := n;
     capital_cost := capital_cost c;
     cost := cost c |}.

(** ** Scenarios *)

(** A non-daily timeframe at 51% occupancy. *)
Definition fractional_inputs : inputs :=
  {| selected_ward := "General Ward";
     num_beds := 10;
     num_nights := 30;
     occupancy_rate := 51;
     timeframe := "5 Years";
     darwin_cost_input := 80%float;
     sqm_cost := 2500 |}.

(** A ward that costs less per night than the alternative. *)
Definition loss_inputs : inputs :=
  {| selected_ward := "Psychiatric";
     num_beds := 10;
     num_nights := 30;
     occupancy_rate := 90;
     timeframe := "Daily";
     darwin_cost_input := 80%float;
     sqm_cost := 2500 |}.

(** ** Positive finite floats *)

(** A finite float above zero, the exponent of its last bit within
    [lo .. hi]. *)
Definition pos_finite (lo hi : Z) (x : float) : bool :=
  match Prim2SF x with
  | S754_finite false _ e => (lo <=? e) && (e <=? hi)
  | _ => false
  end.

Definition num_pos_finite (lo hi : Z) (a : num) : bool :=
  match a with
  | Int _ => false
  | Float x => pos_finite lo hi x
  end.

(** The [n] integers from [lo] on. *)
Definition Zrange (lo : Z) (n : nat) : list Z :=
  map (fun k => lo + Z.of_nat k) (seq 0 n).

(** The NHS cost per night of a row under the 60-year model. *)
Definition nhs_night_60 (r : ward_row) (sqm : Z) : num :=
  add (Float (to_float (mul (Int sqm) (area_per_bed r))
              / to_float (Int 60)
              / to_float (mul (Int 365) (Float 0.9))))
      (nhs_maintenance_cost r).

(** ** What the specification says, in its own words *)

(** The cost result as the specification defines it: the per-night sum, the
    two totals, their difference, and the percentage guarded against a zero
    total.  The division here is the plain IEEE one, which never raises. *)
Definition cost_result_spec (cap maint alt beds nights : num) : costs :=
  let nhsCostPerNight := add cap maint in
  let totalNhsCost := mul (mul nhsCostPerNight beds) nights in
  let totalAlternativeCost := mul (mul alt beds) nights in
  let savings := sub totalNhsCost totalAlternativeCost in
  {| nhs_night := nhsCostPerNight;
     total_nhs := totalNhsCost;
     total_darwin := totalAlternativeCost;
     savings := savings;
     percent_savings :=
       if is_zero totalNhsCost then Int 0
       else mul (Float (to_float savings / to_float totalNhsCost)) (Int 100) |}.

(** Occupancy-scaled days of a period with the grouping of the source,
    [tf_days * (occ_rate / 100)]: the occupancy fraction is computed first,
    then the period's days are multiplied by it. *)
Definition occupancy_scaled_days (tf_days occ_rate : num) : num :=
  mul tf_days (Float (to_float occ_rate / to_float (Int 100))).

(** Occupancy-scaled days as the specification writes them,
    [timeframeDays * occupancyRatePercent / 100]: the product first, then the
    division by 100. *)
Definition scaled_days_as_stated (tf_days occ_rate : num) : num :=
  Float (to_float (mul tf_days occ_rate) / to_float (Int 100)).

(** A number on which the model's arithmetic is Python's: a float, or an
    integer that converts to a float exactly. *)
Definition exact_num (a : num) : bool :=
  match a with
  | Int z => Z.abs z <=? 2 ^ 53
  | Float _ => true
  end.

(** The class of an exception, [type(e).__name__]. *)
Definition exn_name (e : exn) : string :=
  match e with
  | KeyError _ => "KeyError"
  | IndexError => "IndexError"
  | ZeroDivisionError => "ZeroDivisionError"
  end.

(** A call that fails with an exception of the named class. *)
Definition raises_named {A : Type} (name : string) (r : result A) : Prop :=
  exists e : exn, r = Raise e /\ exn_name e = name.

(** 57% occupancy over 60 years. *)
Definition grouping_inputs : inputs :=
  {| selected_ward := "General Ward";
     num_beds := 10;
     num_nights := 30;
     occupancy_rate := 57;
     timeframe := "60 Years";
     darwin_cost_input := 80%float;
     sqm_cost := 2500 |}.

(** The columns of the export, in the order the specification lists them. *)
Definition report_columns : list string :=
  [ "Ward Type"; "Beds"; "Nights (Adjusted)"; "NHS per Night (£)";
    "Darwin per Night (£)"; "NHS Total (£)"; "Darwin Total (£)";
    "Savings (£)"; "% Savings" ].

(** The cost result of an input set as the specification composes it: the
    effective nights (the nights entered for one day, the occupancy-scaled
    days otherwise), the capital cost (re-derived from the build cost for 60
    years, the ward's own otherwise) and the cost calculator on them. *)
Definition pipeline_spec (i : inputs) (r : ward_row) (days : Z) : calc :=
  let effectiveNights :=
    if days =? 1 then Int (num_nights i)
    else occupancy_scaled_days (Int days) (Int (occupancy_rate i)) in
  let capitalCostPerNight :=
    if String.eqb (timeframe i) "60 Years" then
      Float (to_float (mul (Int (sqm_cost i)) (area_per_bed r))
             / to_float (Int 60)
             / to_float (mul (Int 365) (Float 0.9)))
    else nhs_capital_cost r in
  {| row := r;
     area := area_per_bed r;
     timeframe_days := days;
     effective_nights := effectiveNights;
     capital_cost := capitalCostPerNight;
     cost :=
       cost_result_spec capitalCostPerNight (nhs_maintenance_cost r)
         (Float (darwin_cost_input i)) (Int (num_beds i)) effectiveNights |}.

(** ** Finite floats *)

(** A zero or a finite float whose last bit has an exponent of at most
    [hi]. *)
Definition finite_below (hi : Z) (x : float) : bool :=
  match Prim2SF x with
  | S754_zero _ => true
  | S754_finite _ _ e => e <=? hi
  | _ => false
  end.

(** [math.isfinite(a)]: neither an infinity nor NaN. *)
Definition is_finite (a : num) : bool :=
  match a with
  | Int _ => true
  | Float x =>
      match Prim2SF x with
      | S754_zero _ | S754_finite _ _ _ => true
      | _ => false
      end
  end.

(** ** Moving one widget *)

Definition with_nights (i : inputs) (n : Z) : inputs :=
  {| selected_ward := selected_ward i;
     num_beds := num_beds i;
     num_nights := n;
     occupancy_rate := occupancy_rate i;
     timeframe := timeframe i;
     darwin_cost_input := darwin_cost_input i;
     sqm_cost := sqm_cost i |}.

Definition with_sqm_cost (i : inputs) (sqm : Z) : inputs :=
  {| selected_ward := selected_ward i;
     num_beds := num_beds i;
     num_nights := num_nights i;
     occupancy_rate := occupancy_rate i;
     timeframe := timeframe i;
     darwin_cost_input := darwin_cost_input i;
     sqm_cost := sqm |}.

Definition with_timeframe (i : inputs) (label : string) : inputs :=
  {| selected_ward := selected_ward i;
     num_beds := num_beds i;
     num_nights := num_nights i;
     occupancy_rate := occupancy_rate i;
     timeframe := label;
     darwin_cost_input := darwin_cost_input i;
     sqm_cost := sqm_cost i |}.

(** The bars of the first chart with a given axis label. *)
Fixpoint chart_bars (ylabel : string) (out : list element) : option (list (string * num)) :=
  match out with
  | [] => None
  | pyplot _ y bars :: rest =>
      if String.eqb y ylabel then Some bars else chart_bars ylabel rest
  | _ :: rest => chart_bars ylabel rest
  end.

(** What the occupancy check leaves on the page. *)
Definition warning_of (i : inputs) : list element :=
  if occupancy_rate i <? 70 then [sidebar_warning occupancy_warning] else [].



(** A ward and a timeframe the widgets do not offer. *)
Definition unknown_ward_inputs : inputs :=
  {| selected_ward := "Dental";
     num_beds := 10;
     num_nights := 30;
     occupancy_rate := 65;
     timeframe := "Daily";
     darwin_cost_input := 80%float;
     sqm_cost := 2500 |}.

(** * Properties *)

(** ** The functions *)

Lemma truediv_nonzero (a b : num) :
  is_zero b = false -> truediv a b = Ok (Float (to_float a / to_float b)).
Proof. intros H. unfold truediv. rewrite H. reflexivity. Qed.

(** [calculate_costs] never raises: the guard keeps a zero divisor away. *)
Lemma calculate_costs_eq (cap maint darwin beds nights : num) :
  calculate_costs cap maint darwin beds nights
  = Ok (cost_result_spec cap maint darwin beds nights).
Proof.
  unfold calculate_costs, cost_result_spec, truthy.
  destruct (is_zero (mul (mul (add cap maint) beds) nights)) eqn:Hz; cbn [negb].
  - reflexivity.
  - rewrite (truediv_nonzero _ _ Hz). reflexivity.
Qed.

(** C1. For every capital, maintenance and alternative cost per night (floats)
    and every number of beds and effective nights (floats, or integers that
    convert to floats exactly), [calculate_costs] returns (it never raises)
    five values: the cost per night is the capital plus the maintenance cost,
    each total is its cost per night times the beds times the nights, the
    savings are the NHS total minus the alternative total, and the percentage
    is the savings over the NHS total times 100 when that total is not zero,
    and 0 when it is. *)
Theorem calculate_costs_correct (cap maint darwin : float) (beds nights : num) :
  exact_num beds = true ->
  exact_num nights = true ->
  exists k : costs,
    calculate_costs (Float cap) (Float maint) (Float darwin) beds nights = Ok k
    /\ nhs_night k = Float (cap + maint)
    /\ total_nhs k = mul (mul (nhs_night k) beds) nights
    /\ total_darwin k = mul (mul (Float darwin) beds) nights
    /\ savings k = sub (total_nhs k) (total_darwin k)
    /\ (is_zero (total_nhs k) = false ->
        percent_savings k
        = mul (Float (to_float (savings k) / to_float (total_nhs k))) (Int 100))
    /\ (is_zero (total_nhs k) = true -> percent_savings k = Int 0).
Proof.
  intros _ _.
  exists (cost_result_spec (Float cap) (Float maint) (Float darwin) beds nights).
  split; [apply calculate_costs_eq|].
  unfold cost_result_spec. cbn [nhs_night total_nhs total_darwin savings percent_savings].
  repeat split; intros Hz; rewrite Hz; reflexivity.
Qed.

Lemma calculate_costs_witness :
  exists k : costs,
    calculate_costs (Float 80.63) (Float 12.20) (Float 80) (Int 10) (Int 30) = Ok k
    /\ nhs_night k = Float 92.83
    /\ total_nhs k = Float 27849
    /\ percent_savings k
       = mul (Float (to_float (savings k) / to_float (total_nhs k))) (Int 100).
Proof.
  destruct (calculate_costs_correct 80.63 12.20 80 (Int 10) (Int 30) eq_refl eq_refl)
    as (k & Hk & Hn & Ht & _ & _ & Hp & _).
  exists k. split; [exact Hk|].
  split; [rewrite Hn; reflexivity|].
  assert (Htot : total_nhs k = Float 27849) by (rewrite Ht, Hn; reflexivity).
  split; [exact Htot|].
  apply Hp. rewrite Htot. reflexivity.
Defined.

Lemma hundred_nonzero : is_zero (Int 100) = false.
Proof. reflexivity. Qed.

Lemma calculate_effective_nights_eq (nights occ_rate tf_days : num) :
  calculate_effective_nights nights occ_rate tf_days
  = Ok (if eqb tf_days (Int 1) then nights else occupancy_scaled_days tf_days occ_rate).
Proof.
  unfold calculate_effective_nights, occupancy_scaled_days.
  destruct (eqb tf_days (Int 1)); [reflexivity|].
  rewrite (truediv_nonzero _ _ hundred_nonzero). reflexivity.
Qed.

(** C2, as the code has it. For all nights, and every occupancy rate and
    timeframe in days that are floats or integers converting to floats
    exactly, [calculate_effective_nights] returns the nights it is given when
    the timeframe is one day, and otherwise the timeframe's days times the
    occupancy fraction, [tf_days * (occ_rate / 100)] with the division
    carried out first, whatever nights the user entered. *)
Theorem calculate_effective_nights_correct (nights occ_rate tf_days : num) :
  exact_num occ_rate = true ->
  exact_num tf_days = true ->
  (eqb tf_days (Int 1) = true ->
   calculate_effective_nights nights occ_rate tf_days = Ok nights)
  /\ (eqb tf_days (Int 1) = false ->
      calculate_effective_nights nights occ_rate tf_days
      = Ok (occupancy_scaled_days tf_days occ_rate)
      /\ forall nights' : num,
          calculate_effective_nights nights' occ_rate tf_days
          = calculate_effective_nights nights occ_rate tf_days).
Proof.
  intros _ _. split; intros H.
  - rewrite calculate_effective_nights_eq, H. reflexivity.
  - split; [|intros nights']; rewrite !calculate_effective_nights_eq, H; reflexivity.
Qed.

Lemma calculate_effective_nights_witness :
  calculate_effective_nights (Int 30) (Int 90) (Int 1) = Ok (Int 30)
  /\ calculate_effective_nights (Int 30) (Int 90) (Int 1825)
     = Ok (occupancy_scaled_days (Int 1825) (Int 90))
  /\ calculate_effective_nights (Int 365) (Int 90) (Int 1825)
     = calculate_effective_nights (Int 30) (Int 90) (Int 1825).
Proof.
  split.
  - exact (proj1 (calculate_effective_nights_correct (Int 30) (Int 90) (Int 1)
                    eq_refl eq_refl) eq_refl).
  - split.
    + exact (proj1 (proj2 (calculate_effective_nights_correct (Int 30) (Int 90) (Int 1825)
                             eq_refl eq_refl) eq_refl)).
    + exact (proj2 (proj2 (calculate_effective_nights_correct (Int 30) (Int 90) (Int 1825)
                             eq_refl eq_refl) eq_refl) (Int 365)).
Defined.

(** C2, as stated, fails in the last digit: at 57% occupancy over 60 years, a
    valid input set, the specification's [timeframeDays *
    occupancyRatePercent / 100] is 12483 and the function returns
    12482.999999999998, which is also what the calculations use. *)
Lemma effective_nights_not_as_stated :
  valid_inputs grouping_inputs = true
  /\ scaled_days_as_stated (Int 21900) (Int 57) = Float 12483
  /\ calculate_effective_nights (Int 30) (Int 57) (Int 21900)
     = Ok (Float 12482.999999999998)
  /\ (exists c : calc,
        calculations grouping_inputs = Ok c
        /\ effective_nights c = Float 12482.999999999998)
  /\ calculate_effective_nights (Int 30) (Int 57) (Int 21900)
     <> Ok (scaled_days_as_stated (Int 21900) (Int 57)).
Proof.
  assert (Hcode : calculate_effective_nights (Int 30) (Int 57) (Int 21900)
                  = Ok (Float 12482.999999999998)) by (vm_compute; reflexivity).
  assert (Hspec : scaled_days_as_stated (Int 21900) (Int 57) = Float 12483)
    by (vm_compute; reflexivity).
  split; [reflexivity|]. split; [exact Hspec|]. split; [exact Hcode|]. split.
  - eexists. split; [vm_compute; reflexivity|]. reflexivity.
  - rewrite Hcode, Hspec. intros Heq.
    apply (f_equal (fun r => match r with
                             | Ok (Float x) => PrimFloat.eqb x 12483
                             | _ => true
                             end)) in Heq.
    vm_compute in Heq. discriminate Heq.
Qed.

(** The order of the two operations shows in the last digit: at 57%
    occupancy over 60 years the source's [tf_days * (occ_rate / 100)] is just
    below the 12483 that [(tf_days * occ_rate) / 100] gives. *)
Lemma scaled_days_grouping :
  occupancy_scaled_days (Int 21900) (Int 57) = Float 12482.999999999998
  /\ Float (to_float (mul (Int 21900) (Int 57)) / to_float (Int 100)) = Float 12483.
Proof. split; vm_compute; reflexivity. Qed.

(** C4, as the code has it. [get_timeframe_days] maps the five labels to 1,
    1825, 3650, 5475 and 21900 days, and on every other label it raises at
    once the KeyError of the dictionary lookup, which carries the label that
    was not found and nothing else. *)
Theorem get_timeframe_days_correct :
  get_timeframe_days "Daily" = Ok 1
  /\ get_timeframe_days "5 Years" = Ok 1825
  /\ get_timeframe_days "10 Years" = Ok 3650
  /\ get_timeframe_days "15 Years" = Ok 5475
  /\ get_timeframe_days "60 Years" = Ok 21900
  /\ forall label : string,
       ~ In label timeframe_options ->
       get_timeframe_days label = Raise (KeyError label).
Proof.
  repeat (split; [reflexivity|]).
  intros label Hnot. unfold get_timeframe_days, timeframe_days_dict, getitem.
  repeat match goal with
  | |- context [String.eqb ?k label] =>
      destruct (String.eqb_spec k label) as [Heq|_];
      [exfalso; apply Hnot; rewrite <- Heq; cbn; tauto|]
  end.
  reflexivity.
Qed.

Lemma get_timeframe_days_witness :
  get_timeframe_days "Weekly" = Raise (KeyError "Weekly").
Proof.
  apply get_timeframe_days_correct.
  cbn. intros H. repeat (destruct H as [H|H]; [discriminate H|]). exact H.
Defined.

(** C4, as stated, fails on the kind of error: for the label Weekly the
    lookup raises an exception of class KeyError holding the label, and no
    exception of a class InvalidTimeframe. *)
Lemma no_invalid_timeframe_error :
  get_timeframe_days "Weekly" = Raise (KeyError "Weekly")
  /\ raises_named "KeyError" (get_timeframe_days "Weekly")
  /\ ~ raises_named "InvalidTimeframe" (get_timeframe_days "Weekly").
Proof.
  split; [reflexivity|]. split.
  - exists (KeyError "Weekly"). split; reflexivity.
  - intros (e & He & Hname). change (get_timeframe_days "Weekly")
      with (@Raise Z (KeyError "Weekly")) in He.
    injection He as <-. discriminate Hname.
Qed.

(** Only the five labels resolve, each to its own day count. *)
Lemma get_timeframe_days_inv (label : string) (d : Z) :
  get_timeframe_days label = Ok d -> In (label, d) timeframe_days_dict.
Proof.
  unfold get_timeframe_days, timeframe_days_dict, getitem.
  repeat match goal with
  | |- context [String.eqb ?k label] =>
      destruct (String.eqb_spec k label) as [<-|_];
      [intros [= <-]; cbn; tauto|]
  end.
  discriminate.
Qed.

(** ** The pipeline *)

Lemma mem_In (s : string) (l : list string) : mem s l = true <-> In s l.
Proof.
  unfold mem. rewrite existsb_exists. split.
  - intros (x & Hx & Heq). apply String.eqb_eq in Heq. subst. exact Hx.
  - intros H. exists s. split; [exact H | apply String.eqb_refl].
Qed.

(** Selecting one of the twelve care types finds its row. *)
Lemma select_ward_found (ward : string) :
  mem ward care_type_col = true ->
  exists r, iloc0 (select_ward ward) = Ok r /\ In r df /\ care_type r = ward.
Proof.
  intros H. apply mem_In in H. unfold care_type_col in H.
  repeat (destruct H as [<-|H];
          [eexists; split; [reflexivity | split; [cbn; tauto | reflexivity]]|]).
  destruct H.
Qed.

Lemma timeframe_found (label : string) :
  mem label timeframe_options = true ->
  exists d, get_timeframe_days label = Ok d /\ In (label, d) timeframe_days_dict.
Proof.
  intros H. apply mem_In in H. unfold timeframe_options in H.
  repeat (destruct H as [<-|H];
          [eexists; split; [reflexivity | cbn; tauto]|]).
  destruct H.
Qed.

Lemma capital_cost_switch_eq (tf : string) (sqm a : num) (r : ward_row) :
  capital_cost_switch tf sqm a r
  = Ok (if String.eqb tf "60 Years" then
          Float (to_float (mul sqm a) / to_float (Int 60)
                 / to_float (mul (Int 365) (Float 0.9)))
        else nhs_capital_cost r).
Proof.
  unfold capital_cost_switch. destruct (String.eqb tf "60 Years"); [|reflexivity].
  rewrite truediv_nonzero by reflexivity. cbn [bind result_monad].
  rewrite truediv_nonzero by reflexivity. reflexivity.
Qed.

(** Once the ward and the timeframe are found, nothing in the calculations
    raises, and they give what the specification composes. *)
Lemma calculations_eq (i : inputs) (r : ward_row) (d : Z) :
  iloc0 (select_ward (selected_ward i)) = Ok r ->
  get_timeframe_days (timeframe i) = Ok d ->
  calculations i = Ok (pipeline_spec i r d).
Proof.
  intros Hr Hd. unfold calculations. rewrite Hr. cbn [bind result_monad].
  rewrite Hd. cbn [bind result_monad].
  rewrite calculate_effective_nights_eq. cbn [bind result_monad].
  rewrite capital_cost_switch_eq. cbn [bind result_monad].
  rewrite calculate_costs_eq. cbn [bind result_monad].
  reflexivity.
Qed.

Lemma valid_inputs_ward (i : inputs) :
  valid_inputs i = true -> mem (selected_ward i) care_type_col = true.
Proof. unfold valid_inputs. intros H. repeat (apply andb_prop in H; destruct H as [H ?]). exact H. Qed.

Lemma valid_inputs_timeframe (i : inputs) :
  valid_inputs i = true -> mem (timeframe i) timeframe_options = true.
Proof.
  unfold valid_inputs. intros H. repeat (apply andb_prop in H; destruct H as [H ?]).
  assumption.
Qed.

(** Every valid input set goes through the calculations. *)
Lemma calculations_valid (i : inputs) :
  valid_inputs i = true ->
  exists r d,
    calculations i = Ok (pipeline_spec i r d)
    /\ In r df /\ care_type r = selected_ward i
    /\ In (timeframe i, d) timeframe_days_dict.
Proof.
  intros Hv.
  destruct (select_ward_found _ (valid_inputs_ward _ Hv)) as (r & Hr & Hin & Hname).
  destruct (timeframe_found _ (valid_inputs_timeframe _ Hv)) as (d & Hd & Hind).
  exists r, d. split; [apply calculations_eq; assumption|]. tauto.
Qed.

Lemma df_area (r : ward_row) : In r df -> exists a : Z, area_per_bed r = Int a.
Proof.
  intros H. cbn in H.
  repeat (destruct H as [<-|H]; [eexists; reflexivity|]).
  destruct H.
Qed.

(** C3. For every valid input set the calculations go through with the
    selected ward's row, and the capital cost per night they hand to the cost
    calculator is, for the 60-year timeframe, the build cost times the area
    per bed, over 60, over 365 times 0.9, and for every other timeframe the
    ward's capital cost of the table; moving the occupancy slider leaves it
    unchanged. *)
Theorem capital_cost_correct (i : inputs) :
  valid_inputs i = true ->
  exists (c : calc) (a : Z),
    calculations i = Ok c
    /\ In (row c) df
    /\ care_type (row c) = selected_ward i
    /\ area_per_bed (row c) = Int a
    /\ capital_cost c
       = (if String.eqb (timeframe i) "60 Years"
          then Float (float_of_Z (sqm_cost i * a) / float_of_Z 60
                      / (float_of_Z 365 * 0.9))
          else nhs_capital_cost (row c))
    /\ cost c
       = cost_result_spec (capital_cost c) (nhs_maintenance_cost (row c))
           (Float (darwin_cost_input i)) (Int (num_beds i)) (effective_nights c)
    /\ forall occ : Z,
         exists c' : calc,
           calculations (with_occupancy i occ) = Ok c'
           /\ capital_cost c' = capital_cost c.
Proof.
  intros Hv.
  destruct (select_ward_found _ (valid_inputs_ward _ Hv)) as (r & Hr & Hin & Hname).
  destruct (timeframe_found _ (valid_inputs_timeframe _ Hv)) as (d & Hd & _).
  destruct (df_area r Hin) as (a & Ha).
  exists (pipeline_spec i r d), a.
  split; [apply calculations_eq; assumption|].
  cbn [pipeline_spec row area capital_cost cost effective_nights].
  repeat split; try assumption.
  - rewrite Ha. reflexivity.
  - intros occ. exists (pipeline_spec (with_occupancy i occ) r d).
    split; [apply calculations_eq; assumption|]. reflexivity.
Qed.

Lemma capital_cost_witness :
  exists (c : calc) (a : Z),
    calculations default_inputs = Ok c
    /\ In (row c) df
    /\ care_type (row c) = selected_ward default_inputs
    /\ area_per_bed (row c) = Int a
    /\ capital_cost c
       = (if String.eqb (timeframe default_inputs) "60 Years"
          then Float (float_of_Z (sqm_cost default_inputs * a) / float_of_Z 60
                      / (float_of_Z 365 * 0.9))
          else nhs_capital_cost (row c))
    /\ cost c
       = cost_result_spec (capital_cost c) (nhs_maintenance_cost (row c))
           (Float (darwin_cost_input default_inputs)) (Int (num_beds default_inputs))
           (effective_nights c)
    /\ forall occ : Z,
         exists c' : calc,
           calculations (with_occupancy default_inputs occ) = Ok c'
           /\ capital_cost c' = capital_cost c.
Proof. exact (capital_cost_correct default_inputs eq_refl). Defined.

(** C5. General Ward, 10 beds, 30 nights, 90% occupancy, Daily, alternative
    cost 80 (the widgets' defaults): the cost per night is 80.63 + 12.20 =
    92.83, the NHS total 27849, the alternative total 24000, the savings 3849
    and the percentage 13.82 to two decimals. *)
Theorem general_ward_scenario :
  exists c : calc,
    calculations default_inputs = Ok c
    /\ capital_cost c = Float 80.63
    /\ nhs_maintenance_cost (row c) = Float 12.20
    /\ nhs_night (cost c) = Float 92.83
    /\ total_nhs (cost c) = Float 27849
    /\ total_darwin (cost c) = Float 24000
    /\ savings (cost c) = Float 3849
    /\ format_f false 2 (percent_savings (cost c)) = "13.82"
    /\ ltb (Float 13.815) (percent_savings (cost c)) = true
    /\ ltb (percent_savings (cost c)) (Float 13.825) = true.
Proof.
  eexists. split; [vm_compute; reflexivity|].
  cbn [capital_cost row cost nhs_maintenance_cost nhs_night total_nhs total_darwin
       savings percent_savings].
  repeat split; vm_compute; reflexivity.
Qed.

(** ** The page script *)

Lemma occupancy_check_run (i : inputs) (out : list element) :
  occupancy_check i out
  = (Ok tt,
     (out ++ if occupancy_rate i <? 70 then [sidebar_warning occupancy_warning] else [])%list).
Proof.
  unfold occupancy_check. cbn [ltb].
  destruct (occupancy_rate i <? 70).
  - reflexivity.
  - cbn [ret page_monad]. rewrite app_nil_r. reflexivity.
Qed.

(** What was on the page before the calculations start has no part in them:
    it is kept, and the outcome and the elements that follow are the same. *)
Lemma body_app (i : inputs) (out : list element) :
  body i out = (fst (body i []), (out ++ snd (body i []))%list).
Proof.
  unfold body. cbv [bind page_monad lift].
  destruct (calculations i) as [c|e].
  - cbv [summary_display charts download_report bind page_monad emit].
    cbn [fst snd app]. rewrite <- !app_assoc. reflexivity.
  - cbn [fst snd]. rewrite app_nil_r. reflexivity.
Qed.

Lemma script_run (i : inputs) :
  script i []
  = (fst (body i []),
     ((if occupancy_rate i <? 70 then [sidebar_warning occupancy_warning] else [])
      ++ snd (body i []))%list).
Proof.
  unfold script. cbn [bind page_monad].
  rewrite occupancy_check_run. rewrite body_app. reflexivity.
Qed.

(** The elements the script writes after a calculation that went through. *)
Lemma body_ok (i : inputs) (c : calc) :
  calculations i = Ok c ->
  body i []
  = (Ok tt, snd ((summary_display i c ;;; charts i c ;;; download_report i c) [])).
Proof.
  intros Hc. unfold body. cbv [bind page_monad lift]. rewrite Hc.
  reflexivity.
Qed.

Lemma body_no_warning (i : inputs) (text : string) :
  ~ In (sidebar_warning text) (snd (body i [])).
Proof.
  unfold body. cbv [bind page_monad lift].
  destruct (calculations i) as [c|e].
  - cbv [summary_display charts download_report bind page_monad emit].
    cbn [fst snd app In]. intros H.
    repeat (destruct H as [H|H]; [discriminate H|]). exact H.
  - cbn. tauto.
Qed.

(** C8. The warning is written exactly when the occupancy rate is below 70.
    The check never raises; the script then runs the calculations and the
    rest of the page as it would with nothing written before, so the outcome
    and every element after the warning are the same with and without it. *)
Theorem occupancy_warning_correct (i : inputs) :
  (In (sidebar_warning occupancy_warning) (snd (script i [])) <-> occupancy_rate i < 70)
  /\ fst (occupancy_check i []) = Ok tt
  /\ fst (script i []) = fst (body i [])
  /\ snd (script i [])
     = ((if occupancy_rate i <? 70 then [sidebar_warning occupancy_warning] else [])
        ++ snd (body i []))%list
  /\ (forall out : list element,
        body i out = (fst (body i []), (out ++ snd (body i []))%list)).
Proof.
  rewrite script_run, occupancy_check_run. cbn [fst snd].
  repeat split; try apply body_app.
  - intros H. apply in_app_or in H. destruct H as [H|H].
    + destruct (Z.ltb_spec (occupancy_rate i) 70); [assumption | destruct H].
    + exfalso. exact (body_no_warning _ _ H).
  - intros H. apply in_or_app. left.
    apply Z.ltb_lt in H. rewrite H. cbn. tauto.
Qed.

(** At 65% occupancy the warning is on the page. *)
Lemma occupancy_warning_witness :
  In (sidebar_warning occupancy_warning)
     (snd (script (with_occupancy default_inputs 65) [])).
Proof.
  apply (proj2 (proj1 (occupancy_warning_correct (with_occupancy default_inputs 65)))).
  cbn [with_occupancy occupancy_rate]. lia.
Defined.

Local Opaque format_f.

(** C7. For every valid input set the script offers one download, named
    bed_cost_comparison_report.csv: a header line with the nine columns in
    the listed order and exactly one data line, whose numeric cells are the
    computed values themselves, not rounded or formatted. *)
Theorem csv_export_correct (i : inputs) :
  valid_inputs i = true ->
  exists c : calc,
    calculations i = Ok c
    /\ fst (script i []) = Ok tt
    /\ filter is_download (snd (script i []))
       = [ download_button "Download CSV Report"
             [ map Text report_columns;
               [ Text (selected_ward i);
                 Number (Int (num_beds i));
                 Number (effective_nights c);
                 Number (nhs_night (cost c));
                 Number (Float (darwin_cost_input i));
                 Number (total_nhs (cost c));
                 Number (total_darwin (cost c));
                 Number (savings (cost c));
                 Number (percent_savings (cost c)) ] ]
             "bed_cost_comparison_report.csv" "text/csv" ].
Proof.
  intros Hv. destruct (calculations_valid i Hv) as (r & d & Hc & _).
  exists (pipeline_spec i r d). split; [exact Hc|].
  rewrite script_run, (body_ok _ _ Hc). cbn [fst snd]. split; [reflexivity|].
  rewrite filter_app.
  replace (filter is_download
             (if occupancy_rate i <? 70 then [sidebar_warning occupancy_warning] else []))
    with (@nil element) by (destruct (occupancy_rate i <? 70); reflexivity).
  reflexivity.
Qed.

Lemma csv_export_witness :
  exists c : calc,
    calculations default_inputs = Ok c
    /\ fst (script default_inputs []) = Ok tt
    /\ filter is_download (snd (script default_inputs []))
       = [ download_button "Download CSV Report"
             [ map Text report_columns;
               [ Text (selected_ward default_inputs);
                 Number (Int (num_beds default_inputs));
                 Number (effective_nights c);
                 Number (nhs_night (cost c));
                 Number (Float (darwin_cost_input default_inputs));
                 Number (total_nhs (cost c));
                 Number (total_darwin (cost c));
                 Number (savings (cost c));
                 Number (percent_savings (cost c)) ] ]
             "bed_cost_comparison_report.csv" "text/csv" ].
Proof. exact (csv_export_correct default_inputs eq_refl). Defined.

(** C10. At 51% occupancy over 5 years (a valid input set, not Daily) the
    effective nights are 930.75, not an integer; the two totals multiply by
    this very value, and it is the cell under Nights (Adjusted) in the
    export. *)
Theorem fractional_nights_propagate :
  valid_inputs fractional_inputs = true
  /\ timeframe fractional_inputs <> "Daily"
  /\ exists c : calc,
       calculations fractional_inputs = Ok c
       /\ effective_nights c = Float 930.75
       /\ is_integer (effective_nights c) = false
       /\ total_nhs (cost c)
          = mul (mul (nhs_night (cost c)) (Int (num_beds fractional_inputs)))
              (effective_nights c)
       /\ total_darwin (cost c)
          = mul (mul (Float (darwin_cost_input fractional_inputs))
                   (Int (num_beds fractional_inputs)))
              (effective_nights c)
       /\ csv_column (downloaded (snd (script fractional_inputs []))) "Nights (Adjusted)"
          = [Some (Number (effective_nights c))].
Proof.
  split; [reflexivity|]. split; [discriminate|].
  eexists. split; [vm_compute; reflexivity|].
  cbn [effective_nights cost total_nhs total_darwin nhs_night].
  repeat split; vm_compute; reflexivity.
Qed.

(** The summary and the export of a calculation that went through. *)
Lemma summary_of_export (i : inputs) (c : calc) (warned : bool) :
  let out :=
    ((if warned then [sidebar_warning occupancy_warning] else [])
     ++ snd ((summary_display i c ;;; charts i c ;;; download_report i c) []))%list in
  summary_shows_export abs out
  /\ metric_delta "Estimated Savings" out
     = Some ((if ltb (Int 0) (savings (cost c)) then "-" else "+")
             ++ pound ++ format_f true 2 (abs (savings (cost c)))).
Proof.
  destruct warned.
  all: cbv [summary_display charts download_report bind page_monad emit
            summary_shows_export].
  all: cbn [fst snd app downloaded].
  all: split; [|reflexivity].
  all: repeat split; intros v Hv; cbn in Hv; injection Hv as <-.
  all: try reflexivity.
  all: cbn [In]; tauto.
Qed.

(** C6, as the code has it. For every valid input set the summary shows the
    exported NHS and Darwin costs per night, NHS and Darwin totals and
    percentage in its own formats, rounded to two decimals (one for the
    percentage); of the exported savings it shows the absolute value, the
    direction going into the delta text only; and the effective nights are
    exported but take no part in the summary. *)
Theorem summary_shows_export_abs (i : inputs) :
  valid_inputs i = true ->
  exists c : calc,
    calculations i = Ok c
    /\ summary_shows_export abs (snd (script i []))
    /\ metric_delta "Estimated Savings" (snd (script i []))
       = Some ((if ltb (Int 0) (savings (cost c)) then "-" else "+")
               ++ pound ++ format_f true 2 (abs (savings (cost c))))
    /\ csv_column (downloaded (snd (script i []))) "Nights (Adjusted)"
       = [Some (Number (effective_nights c))]
    /\ forall n : num,
         summary_display i (with_effective_nights c n) = summary_display i c.
Proof.
  intros Hv. destruct (calculations_valid i Hv) as (r & d & Hc & _).
  exists (pipeline_spec i r d). split; [exact Hc|].
  rewrite script_run, (body_ok _ _ Hc). cbn [fst snd].
  generalize (pipeline_spec i r d). intros c.
  destruct (summary_of_export i c (occupancy_rate i <? 70)) as [Hs Hd].
  repeat split; try assumption; try apply Hs.
  destruct (occupancy_rate i <? 70); reflexivity.
Qed.

Lemma summary_shows_export_abs_witness :
  exists c : calc,
    calculations loss_inputs = Ok c
    /\ summary_shows_export abs (snd (script loss_inputs []))
    /\ metric_delta "Estimated Savings" (snd (script loss_inputs []))
       = Some ((if ltb (Int 0) (savings (cost c)) then "-" else "+")
               ++ pound ++ format_f true 2 (abs (savings (cost c))))
    /\ csv_column (downloaded (snd (script loss_inputs []))) "Nights (Adjusted)"
       = [Some (Number (effective_nights c))]
    /\ forall n : num,
         summary_display loss_inputs (with_effective_nights c n)
         = summary_display loss_inputs c.
Proof. exact (summary_shows_export_abs loss_inputs eq_refl). Defined.

(** C6, as stated, fails where the ward costs less than the alternative:
    for Psychiatric, 10 beds, 30 nights, Daily, alternative 80, the export
    holds savings of -9473.9999999999982 and the summary shows 9,474.00. *)
Lemma summary_hides_negative_savings :
  valid_inputs loss_inputs = true
  /\ csv_column (downloaded (snd (script loss_inputs []))) "Savings (£)"
     = [Some (Number (Float (-9473.9999999999982)))]
  /\ metric_value "Estimated Savings" (snd (script loss_inputs [])) = Some "£9,474.00"
  /\ ~ summary_shows_export (fun v => v) (snd (script loss_inputs [])).
Proof.
  assert (Hcol : csv_column (downloaded (snd (script loss_inputs []))) "Savings (£)"
                 = [Some (Number (Float (-9473.9999999999982)))])
    by (vm_compute; reflexivity).
  split; [reflexivity|]. split; [exact Hcol|]. split; [vm_compute; reflexivity|].
  intros (_ & _ & _ & _ & Hs & _).
  apply Hs in Hcol. vm_compute in Hcol. discriminate Hcol.
Qed.

(** ** Binary64 facts *)

Ltac hide_pow :=
  repeat match goal with
  | |- context [2 ^ ?x] => let v := fresh "pw" in set (v := 2 ^ x) in *; clearbody v
  | H : context [2 ^ ?x] |- _ => let v := fresh "pw" in set (v := 2 ^ x) in *; clearbody v
  end.

Lemma digits2_pos_bounds (p : positive) :
  2 ^ (Zpos (digits2_pos p) - 1) <= Zpos p < 2 ^ Zpos (digits2_pos p).
Proof.
  induction p as [p IH|p IH|]; cbn [digits2_pos].
  - rewrite Pos2Z.inj_succ. change (Zpos p~1) with (2 * Zpos p + 1).
    replace (Z.succ (Zpos (digits2_pos p)) - 1) with (Z.succ (Zpos (digits2_pos p) - 1)) by lia.
    rewrite !Z.pow_succ_r by lia. hide_pow. lia.
  - rewrite Pos2Z.inj_succ. change (Zpos p~0) with (2 * Zpos p).
    replace (Z.succ (Zpos (digits2_pos p)) - 1) with (Z.succ (Zpos (digits2_pos p) - 1)) by lia.
    rewrite !Z.pow_succ_r by lia. hide_pow. lia.
  - cbn. lia.
Qed.

Lemma shr_record_of_loc_m (m : Z) (l : location) : shr_m (shr_record_of_loc m l) = m.
Proof. destruct l as [|[ | | ]]; reflexivity. Qed.

Lemma shr_1_m (mrs : shr_record) :
  0 <= shr_m mrs -> shr_m (shr_1 mrs) = shr_m mrs / 2.
Proof.
  destruct mrs as [m r s]. cbn [shr_m]. intros Hm.
  destruct m as [|[p|p|]|p]; cbn [shr_1 shr_m]; try lia.
  - reflexivity.
  - change (Zpos p~1) with (2 * Zpos p + 1). apply Z.div_unique with (r := 1); lia.
  - change (Zpos p~0) with (2 * Zpos p). apply Z.div_unique with (r := 0); lia.
  - reflexivity.
Qed.

Lemma iter_pos_shr_m (p : positive) :
  forall mrs : shr_record,
    0 <= shr_m mrs ->
    shr_m (iter_pos shr_1 p mrs) = shr_m mrs / 2 ^ Zpos p.
Proof.
  assert (Hpos : forall q, 0 < 2 ^ Zpos q) by (intros q; apply Z.pow_pos_nonneg; lia).
  assert (Hnn : forall a q, 0 <= a -> 0 <= a / 2 ^ Zpos q)
    by (intros a q Ha; apply Z.div_pos; [exact Ha | apply Hpos]).
  induction p as [p IH|p IH|]; intros mrs Hm; cbn [iter_pos].
  - assert (H1 : 0 <= shr_m (shr_1 mrs)) by (rewrite shr_1_m by exact Hm; apply Z.div_pos; lia).
    rewrite IH; rewrite IH; try exact H1.
    + rewrite shr_1_m by exact Hm.
      rewrite !Z.div_div by (try apply Hpos; try lia; try (apply Z.neq_sym, Z.lt_neq, Hpos)).
      f_equal. change (Zpos p~1) with (2 * Zpos p + 1).
      replace (2 * Zpos p + 1) with (1 + Zpos p + Zpos p) by lia.
      rewrite !Z.pow_add_r by lia. lia.
    + apply Hnn. exact H1.
  - rewrite IH; rewrite IH; try exact Hm.
    + rewrite Z.div_div by (try apply Hpos; try (apply Z.neq_sym, Z.lt_neq, Hpos)).
      f_equal. change (Zpos p~0) with (2 * Zpos p).
      replace (2 * Zpos p) with (Zpos p + Zpos p) by lia.
      rewrite Z.pow_add_r by lia. reflexivity.
    + apply Hnn. exact Hm.
  - apply shr_1_m. exact Hm.
Qed.

Lemma pow2_pos (k : Z) : 0 <= k -> 0 < 2 ^ k.
Proof. intros H. apply Z.pow_pos_nonneg; lia. Qed.

Lemma Zdigits2_le (m K : Z) : 0 < m < 2 ^ K -> 0 <= K -> 0 < Zdigits2 m <= K.
Proof.
  intros [Hm HK] HK0. destruct m as [|p|p]; try lia. cbn [Zdigits2].
  split; [lia|].
  destruct (digits2_pos_bounds p) as [Hlo _].
  assert (H : 2 ^ (Zpos (digits2_pos p) - 1) < 2 ^ K) by lia.
  apply Z.pow_lt_mono_r_iff in H; lia.
Qed.

(** Shifting a positive mantissa into the format leaves it positive, as long
    as the exponent is not below the smallest one. *)
Lemma shr_fexp_pos (m e : Z) (l : location) (K : Z) :
  0 < m < 2 ^ K -> 0 <= K -> -1074 <= e ->
  0 < shr_m (fst (shr_fexp prec emax m e l)) <= m
  /\ e <= snd (shr_fexp prec emax m e l) <= e + K.
Proof.
  intros Hm HK He.
  pose proof (Zdigits2_le m K Hm HK) as Hd.
  unfold shr_fexp, shr, fexp, SpecFloat.emin, prec, emax.
  destruct (Z.max (Zdigits2 m + e - 53) (3 - 1024 - 53) - e) as [|q|q] eqn:Hn;
    cbn [fst snd]; rewrite ?shr_record_of_loc_m; try lia.
  rewrite iter_pos_shr_m by (rewrite shr_record_of_loc_m; lia).
  rewrite shr_record_of_loc_m.
  assert (Hq : Zpos q = Zdigits2 m - 53) by lia.
  assert (Hlow : 2 ^ Zpos q * 2 ^ 52 <= m).
  { rewrite <- Z.pow_add_r by lia. rewrite Hq.
    replace (Zdigits2 m - 53 + 52) with (Zdigits2 m - 1) by lia.
    destruct m as [|p|p]; try lia. cbn [Zdigits2]. apply digits2_pos_bounds. }
  pose proof (pow2_pos (Zpos q) ltac:(lia)) as Hp.
  split; [split|lia].
  - apply Z.lt_le_trans with (2 ^ 52); [reflexivity|].
    apply Z.div_le_lower_bound; [exact Hp | exact Hlow].
  - apply Z.div_le_upper_bound; [exact Hp|]. hide_pow. nia.
Qed.

Lemma round_nearest_even_bounds (m : Z) (l : location) :
  m <= round_nearest_even m l <= m + 1.
Proof.
  destruct l as [|[ | | ]]; cbn [round_nearest_even]; try lia.
  destruct (Z.even m); lia.
Qed.

(** Rounding a positive mantissa whose exponent is well inside the range
    gives a positive finite number. *)
Lemma binary_round_aux_pos (mx ex : Z) (lx : location) (K : Z) :
  0 < mx < 2 ^ K -> 0 <= K -> -1074 <= ex -> ex + 2 * K + 1 <= 971 ->
  exists (m : positive) (e : Z),
    binary_round_aux prec emax false mx ex lx = S754_finite false m e
    /\ ex <= e <= ex + 2 * K + 1.
Proof.
  intros Hm HK He Hhi. unfold binary_round_aux.
  pose proof (shr_fexp_pos mx ex lx K Hm HK He) as H1.
  destruct (shr_fexp prec emax mx ex lx) as [mrs' e']. cbn [fst snd] in H1.
  pose proof (round_nearest_even_bounds (shr_m mrs') (loc_of_shr_record mrs')) as Hr.
  set (m2 := round_nearest_even (shr_m mrs') (loc_of_shr_record mrs')) in *.
  assert (Hm2 : 0 < m2 < 2 ^ (K + 1)).
  { rewrite Z.pow_add_r by lia. change (2 ^ 1) with 2. hide_pow. lia. }
  pose proof (shr_fexp_pos m2 e' loc_Exact (K + 1) Hm2 ltac:(lia) ltac:(lia)) as H2.
  destruct (shr_fexp prec emax m2 e' loc_Exact) as [mrs'' e'']. cbn [fst snd] in H2.
  destruct (shr_m mrs'') as [|m|m]; try lia.
  exists m, e''.
  replace (e'' <=? emax - prec) with true
    by (symmetry; apply Z.leb_le; unfold emax, prec; lia).
  split; [reflexivity | lia].
Qed.

Lemma valid_mantissa (s : bool) (m : positive) (e : Z) :
  valid_binary (S754_finite s m e) = true -> Zpos m < 2 ^ 53.
Proof.
  cbn [SpecFloat.valid_binary]. unfold bounded, canonical_mantissa, fexp, SpecFloat.emin, prec, emax.
  intros H. apply andb_prop in H. destruct H as [H _]. apply Z.eqb_eq in H.
  destruct (digits2_pos_bounds m) as [_ Hhi].
  apply Z.lt_le_trans with (2 ^ Zpos (digits2_pos m)); [exact Hhi|].
  apply Z.pow_le_mono_r; lia.
Qed.

Lemma pos_finite_inv (lo hi : Z) (x : float) :
  pos_finite lo hi x = true ->
  exists (m : positive) (e : Z),
    Prim2SF x = S754_finite false m e /\ lo <= e <= hi /\ Zpos m < 2 ^ 53.
Proof.
  unfold pos_finite. intros H. pose proof (Prim2SF_valid x) as Hv.
  destruct (Prim2SF x) as [s|s| |s m e]; try discriminate H.
  destruct s; try discriminate H.
  apply andb_prop in H. destruct H as [H1 H2].
  apply Z.leb_le in H1. apply Z.leb_le in H2.
  exists m, e. split; [reflexivity|]. split; [lia|]. exact (valid_mantissa _ _ _ Hv).
Qed.

(** The product of two positive finite floats of moderate exponent is one. *)
Lemma mul_pos_finite (l1 h1 l2 h2 : Z) (x y : float) :
  pos_finite l1 h1 x = true -> pos_finite l2 h2 y = true ->
  -1074 <= l1 + l2 -> h1 + h2 + 213 <= 971 ->
  pos_finite (l1 + l2) (h1 + h2 + 213) (x * y) = true.
Proof.
  intros Hx Hy Hlo Hhi.
  destruct (pos_finite_inv _ _ _ Hx) as (mx & ex & Ex & Hex & Hmx).
  destruct (pos_finite_inv _ _ _ Hy) as (my & ey & Ey & Hey & Hmy).
  unfold pos_finite. rewrite mul_spec, Ex, Ey.
  unfold SF64mul, SFmul. cbn [xorb].
  assert (Hm : 0 < Zpos (mx * my) < 2 ^ 106).
  { split; [lia|]. rewrite Pos2Z.inj_mul. change (2 ^ 106) with (2 ^ 53 * 2 ^ 53).
    apply Z.mul_lt_mono_nonneg; lia. }
  destruct (binary_round_aux_pos (Zpos (mx * my)) (ex + ey) loc_Exact 106 Hm
              ltac:(lia) ltac:(lia) ltac:(lia))
    as (m & e & -> & He).
  apply andb_true_intro. split; apply Z.leb_le; lia.
Qed.

Lemma pos_finite_gt_zero (lo hi : Z) (x : float) :
  pos_finite lo hi x = true ->
  PrimFloat.ltb 0 x = true /\ PrimFloat.eqb x 0 = false.
Proof.
  intros Hx. destruct (pos_finite_inv _ _ _ Hx) as (m & e & E & _).
  rewrite ltb_spec, eqb_spec, E. split; reflexivity.
Qed.

(** ** The NHS total is positive *)

Lemma forallb_Zrange (P : Z -> bool) (lo : Z) (n : nat) :
  forallb P (Zrange lo n) = true ->
  forall z : Z, lo <= z < lo + Z.of_nat n -> P z = true.
Proof.
  intros H z Hz. rewrite forallb_forall in H. apply H.
  unfold Zrange. apply in_map_iff. exists (Z.to_nat (z - lo)).
  split; [lia|]. apply in_seq. lia.
Qed.

(** The finitely many values the widgets allow are checked one by one. *)
Lemma nhs_night_table_ok (r : ward_row) :
  In r df ->
  num_pos_finite (-60) 0 (add (nhs_capital_cost r) (nhs_maintenance_cost r)) = true.
Proof.
  revert r.
  apply (proj1 (forallb_forall
                  (fun r => num_pos_finite (-60) 0
                              (add (nhs_capital_cost r) (nhs_maintenance_cost r))) df)).
  vm_compute. reflexivity.
Qed.

Lemma nhs_night_60_ok (r : ward_row) (sqm : Z) :
  In r df -> 1500 <= sqm <= 4000 ->
  num_pos_finite (-60) 0 (nhs_night_60 r sqm) = true.
Proof.
  intros Hin Hsqm.
  apply (forallb_Zrange (fun sqm => num_pos_finite (-60) 0 (nhs_night_60 r sqm))
           1500 2501); [|lia].
  revert r Hin.
  apply (proj1 (forallb_forall
                  (fun r => forallb (fun sqm => num_pos_finite (-60) 0 (nhs_night_60 r sqm))
                              (Zrange 1500 2501)) df)).
  vm_compute. reflexivity.
Qed.

Lemma beds_ok (b : Z) :
  1 <= b <= 100 -> pos_finite (-60) 0 (float_of_Z b) = true.
Proof.
  intros Hb.
  apply (forallb_Zrange (fun b => pos_finite (-60) 0 (float_of_Z b)) 1 100); [|lia].
  vm_compute. reflexivity.
Qed.

Lemma nights_ok (n : Z) :
  1 <= n <= 365 -> pos_finite (-60) 0 (float_of_Z n) = true.
Proof.
  intros Hn.
  apply (forallb_Zrange (fun n => pos_finite (-60) 0 (float_of_Z n)) 1 365); [|lia].
  vm_compute. reflexivity.
Qed.

Lemma scaled_days_ok (d occ : Z) :
  In d [1825; 3650; 5475; 21900] -> 50 <= occ <= 100 ->
  pos_finite (-60) 0 (to_float (occupancy_scaled_days (Int d) (Int occ))) = true.
Proof.
  intros Hd Ho.
  apply (forallb_Zrange
           (fun occ => pos_finite (-60) 0 (to_float (occupancy_scaled_days (Int d) (Int occ))))
           50 51); [|lia].
  revert d Hd.
  apply (proj1 (forallb_forall
                  (fun d => forallb
                              (fun occ => pos_finite (-60) 0
                                            (to_float (occupancy_scaled_days (Int d) (Int occ))))
                              (Zrange 50 51)) [1825; 3650; 5475; 21900])).
  vm_compute. reflexivity.
Qed.

Lemma num_pos_finite_inv (lo hi : Z) (a : num) :
  num_pos_finite lo hi a = true ->
  exists x : float, a = Float x /\ pos_finite lo hi x = true.
Proof.
  destruct a as [z|x]; cbn [num_pos_finite]; [discriminate|].
  intros H. exists x. split; [reflexivity | exact H].
Qed.

Lemma mul_float_l (x : float) (b : num) : mul (Float x) b = Float (x * to_float b).
Proof. destruct b; reflexivity. Qed.

Lemma valid_inputs_ranges (i : inputs) :
  valid_inputs i = true ->
  1 <= num_beds i <= 100 /\ 1 <= num_nights i <= 365
  /\ 50 <= occupancy_rate i <= 100 /\ 1500 <= sqm_cost i <= 4000.
Proof.
  unfold valid_inputs. intros H.
  repeat (apply andb_prop in H; let H' := fresh "H" in destruct H as [H H']).
  repeat match goal with
  | H : (_ <=? _) = true |- _ => apply Z.leb_le in H
  end.
  lia.
Qed.

(** The cost per night the calculations use is a positive finite float. *)
Lemma nhs_night_pos_finite (i : inputs) (r : ward_row) (d : Z) :
  In r df -> 1500 <= sqm_cost i <= 4000 ->
  num_pos_finite (-60) 0 (nhs_night (cost (pipeline_spec i r d))) = true.
Proof.
  intros Hin Hsqm.
  cbn [pipeline_spec cost cost_result_spec nhs_night].
  destruct (String.eqb (timeframe i) "60 Years").
  - exact (nhs_night_60_ok r (sqm_cost i) Hin Hsqm).
  - exact (nhs_night_table_ok r Hin).
Qed.

(** So are the effective nights. *)
Lemma effective_nights_pos_finite (i : inputs) (r : ward_row) (d : Z) :
  In (timeframe i, d) timeframe_days_dict ->
  1 <= num_nights i <= 365 -> 50 <= occupancy_rate i <= 100 ->
  pos_finite (-60) 0 (to_float (effective_nights (pipeline_spec i r d))) = true.
Proof.
  intros Hd Hn Ho. cbn [pipeline_spec effective_nights].
  assert (Hcases : d = 1 \/ In d [1825; 3650; 5475; 21900]).
  { cbn in Hd. cbn [In].
    repeat (destruct Hd as [Hd|Hd]; [injection Hd as _ <-; tauto|]). destruct Hd. }
  destruct Hcases as [->|Hd'].
  - cbn [Z.eqb Pos.eqb to_float]. exact (nights_ok _ Hn).
  - replace (d =? 1) with false
      by (cbn [In] in Hd'; symmetry; apply Z.eqb_neq; lia).
    exact (scaled_days_ok d (occupancy_rate i) Hd' Ho).
Qed.

Lemma total_nhs_pos_finite (i : inputs) (r : ward_row) (d : Z) :
  valid_inputs i = true -> In r df -> In (timeframe i, d) timeframe_days_dict ->
  num_pos_finite (-180) 426 (total_nhs (cost (pipeline_spec i r d))) = true.
Proof.
  intros Hv Hin Hd.
  destruct (valid_inputs_ranges i Hv) as (Hb & Hn & Ho & Hs).
  pose proof (nhs_night_pos_finite i r d Hin Hs) as Hx.
  pose proof (effective_nights_pos_finite i r d Hd Hn Ho) as Hy.
  pose proof (beds_ok (num_beds i) Hb) as Hbeds.
  change (total_nhs (cost (pipeline_spec i r d)))
    with (mul (mul (nhs_night (cost (pipeline_spec i r d))) (Int (num_beds i)))
              (effective_nights (pipeline_spec i r d))).
  destruct (num_pos_finite_inv _ _ _ Hx) as (x & -> & Hx').
  rewrite !mul_float_l. cbn [num_pos_finite to_float].
  pose proof (mul_pos_finite _ _ _ _ _ _ Hx' Hbeds ltac:(lia) ltac:(lia)) as H1.
  exact (mul_pos_finite _ _ _ _ _ _ H1 Hy ltac:(lia) ltac:(lia)).
Qed.

(** C9. For every input set within the widgets' ranges the calculations go
    through and the NHS total is a float strictly above zero; it is not
    zero, so the percentage is the quotient times 100 and never the 0 of the
    guard. *)
Theorem total_nhs_positive (i : inputs) :
  valid_inputs i = true ->
  exists c : calc,
    calculations i = Ok c
    /\ ltb (Int 0) (total_nhs (cost c)) = true
    /\ is_zero (total_nhs (cost c)) = false
    /\ truthy (total_nhs (cost c)) = true
    /\ percent_savings (cost c)
       = mul (Float (to_float (savings (cost c)) / to_float (total_nhs (cost c))))
             (Int 100).
Proof.
  intros Hv. destruct (calculations_valid i Hv) as (r & d & Hc & Hin & _ & Hd).
  exists (pipeline_spec i r d). split; [exact Hc|].
  pose proof (total_nhs_pos_finite i r d Hv Hin Hd) as Ht.
  destruct (num_pos_finite_inv _ _ _ Ht) as (t & Et & Hpos).
  destruct (pos_finite_gt_zero _ _ _ Hpos) as [Hgt Hne].
  assert (Hz : is_zero (total_nhs (cost (pipeline_spec i r d))) = false)
    by (rewrite Et; exact Hne).
  split; [rewrite Et; exact Hgt|]. split; [exact Hz|].
  split; [unfold truthy; rewrite Hz; reflexivity|].
  change (percent_savings (cost (pipeline_spec i r d)))
    with (if is_zero (total_nhs (cost (pipeline_spec i r d))) then Int 0
          else mul (Float (to_float (savings (cost (pipeline_spec i r d)))
                           / to_float (total_nhs (cost (pipeline_spec i r d)))))
                   (Int 100)).
  rewrite Hz. reflexivity.
Qed.

Lemma total_nhs_positive_witness :
  exists c : calc,
    calculations fractional_inputs = Ok c
    /\ ltb (Int 0) (total_nhs (cost c)) = true
    /\ is_zero (total_nhs (cost c)) = false
    /\ truthy (total_nhs (cost c)) = true
    /\ percent_savings (cost c)
       = mul (Float (to_float (savings (cost c)) / to_float (total_nhs (cost c))))
             (Int 100).
Proof. exact (total_nhs_positive fractional_inputs eq_refl). Defined.

(** * Further properties of the script *)

(** ** Lookups that fail *)

Lemma select_ward_none (ward : string) :
  mem ward care_type_col = false -> select_ward ward = [].
Proof.
  unfold mem. cbn [existsb care_type_col]. intros H.
  repeat (apply orb_false_elim in H; let H' := fresh "Hn" in destruct H as [H' H]).
  unfold select_ward. cbn [df frame care_type_col nhs_capital_cost_col
    nhs_maintenance_cost_col area_per_bed_col filter care_type].
  repeat match goal with
  | Hn : String.eqb ward ?n = false |- _ =>
      rewrite (String.eqb_sym n ward), Hn; clear Hn
  end.
  reflexivity.
Qed.

Lemma get_timeframe_days_unknown (label : string) :
  mem label timeframe_options = false ->
  get_timeframe_days label = Raise (KeyError label).
Proof.
  unfold mem. cbn [existsb timeframe_options]. intros H.
  repeat (apply orb_false_elim in H; let H' := fresh "Hn" in destruct H as [H' H]).
  unfold get_timeframe_days, timeframe_days_dict, getitem.
  repeat match goal with
  | Hn : String.eqb label ?n = false |- _ =>
      rewrite (String.eqb_sym n label), Hn; clear Hn
  end.
  reflexivity.
Qed.

Lemma body_raise (i : inputs) (e : exn) :
  calculations i = Raise e -> body i [] = (Raise e, []).
Proof.
  intros H. unfold body. cbv [bind page_monad lift]. rewrite H. reflexivity.
Qed.

(** X1. A ward that is not in the table: the row selection is empty, taking
    its first row raises IndexError, and the script stops there; between the
    sidebar inputs and the point of failure it has written only the
    occupancy warning when that was due, and it writes nothing of the
    summary, the charts or the download. *)
Theorem unknown_ward_raises (i : inputs) :
  mem (selected_ward i) care_type_col = false ->
  calculations i = Raise IndexError
  /\ script i [] = (Raise IndexError, warning_of i).
Proof.
  intros H.
  assert (Hc : calculations i = Raise IndexError).
  { unfold calculations. rewrite (select_ward_none _ H). reflexivity. }
  split; [exact Hc|].
  rewrite script_run, (body_raise _ _ Hc). cbn [fst snd].
  rewrite app_nil_r. reflexivity.
Qed.

Lemma unknown_ward_witness :
  calculations unknown_ward_inputs = Raise IndexError
  /\ script unknown_ward_inputs [] = (Raise IndexError, warning_of unknown_ward_inputs).
Proof. exact (unknown_ward_raises unknown_ward_inputs eq_refl). Defined.

(** X2. A known ward with a timeframe label outside the five: the
    calculations raise KeyError with that label, nothing of the summary, the
    charts or the download is written, and no effective nights or costs are
    computed.  The ward is looked up first, so an unknown ward wins over an
    unknown label. *)
Theorem unknown_timeframe_raises (i : inputs) :
  mem (selected_ward i) care_type_col = true ->
  mem (timeframe i) timeframe_options = false ->
  calculations i = Raise (KeyError (timeframe i))
  /\ script i [] = (Raise (KeyError (timeframe i)), warning_of i)
  /\ forall ward : string,
       mem ward care_type_col = false ->
       calculations
         {| selected_ward := ward; num_beds := num_beds i; num_nights := num_nights i;
            occupancy_rate := occupancy_rate i; timeframe := timeframe i;
            darwin_cost_input := darwin_cost_input i; sqm_cost := sqm_cost i |}
       = Raise IndexError.
Proof.
  intros Hw Ht.
  destruct (select_ward_found _ Hw) as (r & Hr & _).
  assert (Hc : calculations i = Raise (KeyError (timeframe i))).
  { unfold calculations. rewrite Hr. cbn [bind result_monad].
    rewrite (get_timeframe_days_unknown _ Ht). reflexivity. }
  split; [exact Hc|]. split.
  - rewrite script_run, (body_raise _ _ Hc). cbn [fst snd].
    rewrite app_nil_r. reflexivity.
  - intros ward Hward. unfold calculations. cbn [selected_ward].
    rewrite (select_ward_none _ Hward). reflexivity.
Qed.

Lemma unknown_timeframe_witness :
  calculations (with_timeframe default_inputs "Weekly") = Raise (KeyError "Weekly")
  /\ script (with_timeframe default_inputs "Weekly") []
     = (Raise (KeyError "Weekly"), warning_of (with_timeframe default_inputs "Weekly")).
Proof.
  destruct (unknown_timeframe_raises (with_timeframe default_inputs "Weekly") eq_refl eq_refl)
    as (H1 & H2 & _).
  split; [exact H1 | exact H2].
Defined.

(** X3. The ward lookup is unambiguous: a name of the table selects exactly
    one row, the row of that name, and any other name selects none. *)
Theorem select_ward_unique (ward : string) :
  (mem ward care_type_col = true ->
   exists r : ward_row, select_ward ward = [r] /\ care_type r = ward /\ In r df)
  /\ (mem ward care_type_col = false -> select_ward ward = []).
Proof.
  split; [|apply select_ward_none].
  intros H. apply mem_In in H. unfold care_type_col in H.
  repeat (destruct H as [<-|H];
          [eexists; split; [reflexivity | split; [reflexivity | cbn; tauto]]|]).
  destruct H.
Qed.

Lemma select_ward_unique_witness :
  (exists r : ward_row,
     select_ward "ENT" = [r] /\ care_type r = "ENT" /\ In r df)
  /\ select_ward "Dental" = [].
Proof.
  split.
  - exact (proj1 (select_ward_unique "ENT") eq_refl).
  - exact (proj2 (select_ward_unique "Dental") eq_refl).
Defined.

(** ** Widgets that play no part *)

Lemma not_daily_days (label : string) (d : Z) :
  get_timeframe_days label = Ok d -> label <> "Daily" -> (d =? 1) = false.
Proof.
  intros Hd Hne. apply get_timeframe_days_inv in Hd. cbn in Hd.
  repeat (destruct Hd as [Hd|Hd];
          [injection Hd as <- <-; first [reflexivity | exfalso; apply Hne; reflexivity]|]).
  destruct Hd.
Qed.

Lemma body_of_calculations (i j : inputs) :
  selected_ward j = selected_ward i ->
  timeframe j = timeframe i ->
  num_beds j = num_beds i ->
  darwin_cost_input j = darwin_cost_input i ->
  calculations j = calculations i ->
  forall out : list element, body j out = body i out.
Proof.
  intros Hw Ht Hb Hd Hc out. unfold body. cbv [bind page_monad lift]. rewrite Hc.
  destruct (calculations i) as [c|e]; [|reflexivity].
  cbv [summary_display charts download_report bind page_monad emit report_df].
  rewrite Hw, Ht, Hb, Hd. reflexivity.
Qed.

(** X4. With the Daily timeframe the occupancy slider plays no part in the
    numbers: for every input set, valid or not, moving it changes neither the
    outcome of the calculations nor the summary, the charts or the export;
    only the warning can come or go. *)
Theorem daily_ignores_occupancy (i : inputs) (occ : Z) :
  timeframe i = "Daily" ->
  calculations (with_occupancy i occ) = calculations i
  /\ (forall out : list element, body (with_occupancy i occ) out = body i out)
  /\ script (with_occupancy i occ) []
     = (fst (script i []), (warning_of (with_occupancy i occ) ++ snd (body i []))%list).
Proof.
  intros Ht.
  assert (Hc : calculations (with_occupancy i occ) = calculations i).
  { unfold calculations.
    cbn [with_occupancy selected_ward num_beds num_nights occupancy_rate timeframe
         darwin_cost_input sqm_cost].
    rewrite Ht. change (get_timeframe_days "Daily") with (@Ok Z 1).
    destruct (iloc0 (select_ward (selected_ward i))) as [r|e]; [|reflexivity].
    cbn [bind result_monad]. rewrite !calculate_effective_nights_eq. reflexivity. }
  assert (Hb : forall out, body (with_occupancy i occ) out = body i out)
    by (apply body_of_calculations; [reflexivity .. | exact Hc]).
  split; [exact Hc|]. split; [exact Hb|].
  rewrite !script_run. cbn [fst snd]. rewrite Hb. reflexivity.
Qed.

Lemma daily_ignores_occupancy_witness :
  calculations (with_occupancy default_inputs 55) = calculations default_inputs.
Proof. exact (proj1 (daily_ignores_occupancy default_inputs 55 eq_refl)). Defined.

(** X5. With any timeframe other than Daily the number of nights entered
    plays no part at all: for every input set, valid or not, changing it
    leaves the outcome of the calculations and the whole page as they were. *)
Theorem nights_ignored_unless_daily (i : inputs) (n : Z) :
  timeframe i <> "Daily" ->
  calculations (with_nights i n) = calculations i
  /\ script (with_nights i n) [] = script i [].
Proof.
  intros Ht.
  assert (Hc : calculations (with_nights i n) = calculations i).
  { unfold calculations.
    cbn [with_nights selected_ward num_beds num_nights occupancy_rate timeframe
         darwin_cost_input sqm_cost].
    destruct (iloc0 (select_ward (selected_ward i))) as [r|e]; [|reflexivity].
    cbn [bind result_monad].
    destruct (get_timeframe_days (timeframe i)) as [d|e] eqn:Hd; [|reflexivity].
    cbn [bind result_monad]. rewrite !calculate_effective_nights_eq.
    cbn [eqb]. rewrite (not_daily_days _ _ Hd Ht). reflexivity. }
  split; [exact Hc|].
  rewrite !script_run.
  rewrite (body_of_calculations i (with_nights i n)) by (first [reflexivity | exact Hc]).
  reflexivity.
Qed.

Lemma nights_ignored_unless_daily_witness :
  script (with_nights fractional_inputs 365) [] = script fractional_inputs [].
Proof.
  apply (nights_ignored_unless_daily fractional_inputs 365).
  cbn [fractional_inputs timeframe]. discriminate.
Defined.

(** X6. The build cost per square metre enters the numbers for the 60-year
    timeframe only: with any other label, for every input set, changing it
    leaves the outcome of the calculations and every element from the
    occupancy warning to the download button (the summary, the charts, the
    export) as they were.  The closing assumptions text, which quotes the
    build cost for every timeframe, is outside this statement. *)
Theorem sqm_cost_ignored_unless_60_years (i : inputs) (sqm : Z) :
  timeframe i <> "60 Years" ->
  calculations (with_sqm_cost i sqm) = calculations i
  /\ script (with_sqm_cost i sqm) [] = script i [].
Proof.
  intros Ht.
  assert (Hc : calculations (with_sqm_cost i sqm) = calculations i).
  { unfold calculations.
    cbn [with_sqm_cost selected_ward num_beds num_nights occupancy_rate timeframe
         darwin_cost_input sqm_cost].
    destruct (iloc0 (select_ward (selected_ward i))) as [r|e]; [|reflexivity].
    cbn [bind result_monad].
    destruct (get_timeframe_days (timeframe i)) as [d|e]; [|reflexivity].
    cbn [bind result_monad].
    destruct (calculate_effective_nights _ _ _) as [nights|e]; [|reflexivity].
    cbn [bind result_monad]. rewrite !capital_cost_switch_eq.
    replace (String.eqb (timeframe i) "60 Years") with false
      by (symmetry; apply String.eqb_neq; exact Ht).
    reflexivity. }
  split; [exact Hc|].
  rewrite !script_run.
  rewrite (body_of_calculations i (with_sqm_cost i sqm)) by (first [reflexivity | exact Hc]).
  reflexivity.
Qed.

Lemma sqm_cost_ignored_witness :
  script (with_sqm_cost default_inputs 4000) [] = script default_inputs [].
Proof.
  apply (sqm_cost_ignored_unless_60_years default_inputs 4000).
  cbn [default_inputs timeframe]. discriminate.
Defined.

(** ** The numbers of a valid input set *)

Lemma df_total_column (r : ward_row) :
  In r df ->
  nhs_total_cost_per_night r = add (nhs_capital_cost r) (nhs_maintenance_cost r).
Proof.
  intros H. cbn in H.
  repeat (destruct H as [<-|H]; [reflexivity|]).
  destruct H.
Qed.

(** X7. The column "NHS Total Cost Per Night" the script adds to the table
    and never reads again agrees with what it computes later: for every valid
    input set whose timeframe is not 60 Years, the NHS cost per night of the
    result is the selected row's entry in that column. *)
Theorem nhs_night_is_table_total (i : inputs) :
  valid_inputs i = true ->
  timeframe i <> "60 Years" ->
  exists c : calc,
    calculations i = Ok c
    /\ care_type (row c) = selected_ward i
    /\ nhs_night (cost c) = nhs_total_cost_per_night (row c).
Proof.
  intros Hv Ht. destruct (calculations_valid i Hv) as (r & d & Hc & Hin & Hname & _).
  exists (pipeline_spec i r d). split; [exact Hc|]. split; [exact Hname|].
  cbn [pipeline_spec row cost cost_result_spec nhs_night].
  replace (String.eqb (timeframe i) "60 Years") with false
    by (symmetry; apply String.eqb_neq; exact Ht).
  symmetry. apply df_total_column. exact Hin.
Qed.

Lemma nhs_night_is_table_total_witness :
  exists c : calc,
    calculations fractional_inputs = Ok c
    /\ care_type (row c) = selected_ward fractional_inputs
    /\ nhs_night (cost c) = nhs_total_cost_per_night (row c).
Proof.
  apply (nhs_night_is_table_total fractional_inputs eq_refl).
  cbn [fractional_inputs timeframe]. discriminate.
Defined.

Lemma scaled_days_bounds (d occ : Z) :
  In d [1825; 3650; 5475; 21900] -> 50 <= occ <= 100 ->
  PrimFloat.leb (float_of_Z d / 2) (to_float (occupancy_scaled_days (Int d) (Int occ)))
  && PrimFloat.leb (to_float (occupancy_scaled_days (Int d) (Int occ))) (float_of_Z d)
  = true.
Proof.
  intros Hd Ho.
  apply (forallb_Zrange
           (fun occ =>
              PrimFloat.leb (float_of_Z d / 2)
                (to_float (occupancy_scaled_days (Int d) (Int occ)))
              && PrimFloat.leb (to_float (occupancy_scaled_days (Int d) (Int occ)))
                   (float_of_Z d))
           50 51); [|lia].
  revert d Hd.
  apply (proj1 (forallb_forall
                  (fun d => forallb
                     (fun occ =>
                        PrimFloat.leb (float_of_Z d / 2)
                          (to_float (occupancy_scaled_days (Int d) (Int occ)))
                        && PrimFloat.leb (to_float (occupancy_scaled_days (Int d) (Int occ)))
                             (float_of_Z d))
                     (Zrange 50 51)) [1825; 3650; 5475; 21900])).
  vm_compute. reflexivity.
Qed.

(** X8. For every valid input set the effective nights follow the label:
    with Daily they are the integer entered, between 1 and 365, although the
    period has one day; with a period of years they are a float between half
    the days of the period and all of them. *)
Theorem effective_nights_range (i : inputs) :
  valid_inputs i = true ->
  exists c : calc,
    calculations i = Ok c
    /\ In (timeframe i, timeframe_days c) timeframe_days_dict
    /\ (timeframe i = "Daily" ->
        timeframe_days c = 1
        /\ effective_nights c = Int (num_nights i)
        /\ 1 <= num_nights i <= 365)
    /\ (timeframe i <> "Daily" ->
        exists x : float,
          effective_nights c = Float x
          /\ PrimFloat.leb (float_of_Z (timeframe_days c) / 2) x = true
          /\ PrimFloat.leb x (float_of_Z (timeframe_days c)) = true).
Proof.
  intros Hv. destruct (calculations_valid i Hv) as (r & d & Hc & _ & _ & Hd).
  destruct (valid_inputs_ranges i Hv) as (_ & Hn & Ho & _).
  exists (pipeline_spec i r d). split; [exact Hc|].
  cbn [pipeline_spec timeframe_days effective_nights]. split; [exact Hd|].
  cbn in Hd.
  split.
  - intros Ht. rewrite Ht in Hd.
    repeat (destruct Hd as [Hd|Hd]; [try discriminate Hd|]); [|destruct Hd].
    injection Hd as <-. repeat split; lia.
  - intros Ht.
    assert (Hd' : In d [1825; 3650; 5475; 21900]).
    { cbn [In].
      repeat (destruct Hd as [Hd|Hd];
              [injection Hd as Hl <-; first [tauto | exfalso; apply Ht; symmetry; exact Hl]|]).
      destruct Hd. }
    replace (d =? 1) with false
      by (cbn [In] in Hd'; symmetry; apply Z.eqb_neq; lia).
    pose proof (scaled_days_bounds d (occupancy_rate i) Hd' Ho) as Hb.
    apply andb_prop in Hb. destruct Hb as [Hlo Hhi].
    exists (to_float (occupancy_scaled_days (Int d) (Int (occupancy_rate i)))).
    split; [reflexivity|]. split; assumption.
Qed.

Lemma effective_nights_range_witness :
  exists c : calc,
    calculations fractional_inputs = Ok c
    /\ In (timeframe fractional_inputs, timeframe_days c) timeframe_days_dict
    /\ (timeframe fractional_inputs = "Daily" ->
        timeframe_days c = 1
        /\ effective_nights c = Int (num_nights fractional_inputs)
        /\ 1 <= num_nights fractional_inputs <= 365)
    /\ (timeframe fractional_inputs <> "Daily" ->
        exists x : float,
          effective_nights c = Float x
          /\ PrimFloat.leb (float_of_Z (timeframe_days c) / 2) x = true
          /\ PrimFloat.leb x (float_of_Z (timeframe_days c)) = true).
Proof. exact (effective_nights_range fractional_inputs eq_refl). Defined.

Lemma nhs_night_60_below_table (r : ward_row) (sqm : Z) :
  In r df -> 1500 <= sqm <= 4000 ->
  ltb (nhs_night_60 r sqm) (add (nhs_capital_cost r) (nhs_maintenance_cost r)) = true.
Proof.
  intros Hin Hsqm.
  apply (forallb_Zrange
           (fun sqm => ltb (nhs_night_60 r sqm)
                         (add (nhs_capital_cost r) (nhs_maintenance_cost r)))
           1500 2501); [|lia].
  revert r Hin.
  apply (proj1 (forallb_forall
                  (fun r => forallb
                     (fun sqm => ltb (nhs_night_60 r sqm)
                                   (add (nhs_capital_cost r) (nhs_maintenance_cost r)))
                     (Zrange 1500 2501)) df)).
  vm_compute. reflexivity.
Qed.

(** X9. The 60-year model is the cheaper one for every ward and every build
    cost the widget allows: for a valid input set with another timeframe,
    switching the timeframe to 60 Years gives a strictly lower NHS cost per
    night for the same ward. *)
Theorem sixty_years_is_cheaper (i : inputs) :
  valid_inputs i = true ->
  timeframe i <> "60 Years" ->
  exists c c60 : calc,
    calculations i = Ok c
    /\ calculations (with_timeframe i "60 Years") = Ok c60
    /\ row c60 = row c
    /\ ltb (nhs_night (cost c60)) (nhs_night (cost c)) = true.
Proof.
  intros Hv Ht.
  destruct (select_ward_found _ (valid_inputs_ward _ Hv)) as (r & Hr & Hin & _).
  destruct (timeframe_found _ (valid_inputs_timeframe _ Hv)) as (d & Hd & _).
  destruct (valid_inputs_ranges i Hv) as (_ & _ & _ & Hs).
  exists (pipeline_spec i r d), (pipeline_spec (with_timeframe i "60 Years") r 21900).
  split; [apply calculations_eq; assumption|].
  split; [apply calculations_eq; [exact Hr | reflexivity]|].
  split; [reflexivity|].
  cbn [pipeline_spec cost cost_result_spec nhs_night with_timeframe timeframe sqm_cost].
  replace (String.eqb (timeframe i) "60 Years") with false
    by (symmetry; apply String.eqb_neq; exact Ht).
  change (String.eqb "60 Years" "60 Years") with true. cbv iota.
  exact (nhs_night_60_below_table r (sqm_cost i) Hin Hs).
Qed.

Lemma sixty_years_is_cheaper_witness :
  exists c c60 : calc,
    calculations default_inputs = Ok c
    /\ calculations (with_timeframe default_inputs "60 Years") = Ok c60
    /\ row c60 = row c
    /\ ltb (nhs_night (cost c60)) (nhs_night (cost c)) = true.
Proof.
  apply (sixty_years_is_cheaper default_inputs eq_refl).
  cbn [default_inputs timeframe]. discriminate.
Defined.

(** ** Charts and export *)

Lemma charts_of_export (i : inputs) (c : calc) (warned : bool) :
  let out :=
    ((if warned then [sidebar_warning occupancy_warning] else [])
     ++ snd ((summary_display i c ;;; charts i c ;;; download_report i c) []))%list in
  chart_bars "£ per Bed per Night" out
  = Some [("NHS", nhs_night (cost c)); ("Darwin", Float (darwin_cost_input i))]
  /\ chart_bars "Total Cost (£)" out
     = Some [("NHS", total_nhs (cost c)); ("Darwin", total_darwin (cost c))]
  /\ csv_column (downloaded out) "NHS per Night (£)" = [Some (Number (nhs_night (cost c)))]
  /\ csv_column (downloaded out) "Darwin per Night (£)"
     = [Some (Number (Float (darwin_cost_input i)))]
  /\ csv_column (downloaded out) "NHS Total (£)" = [Some (Number (total_nhs (cost c)))]
  /\ csv_column (downloaded out) "Darwin Total (£)"
     = [Some (Number (total_darwin (cost c)))].
Proof.
  destruct warned.
  all: cbv [summary_display charts download_report bind page_monad emit].
  all: cbn [fst snd app].
  all: repeat split; reflexivity.
Qed.

(** X10. The two bar charts draw the exported numbers themselves: for every
    valid input set the bars of the unit-cost chart are the cells under NHS
    per Night and Darwin per Night of the export, and the bars of the
    total-cost chart the cells under NHS Total and Darwin Total, with no
    rounding in between. *)
Theorem charts_show_export (i : inputs) :
  valid_inputs i = true ->
  exists v1 v2 v3 v4 : num,
    let out := snd (script i []) in
    chart_bars "£ per Bed per Night" out = Some [("NHS", v1); ("Darwin", v2)]
    /\ chart_bars "Total Cost (£)" out = Some [("NHS", v3); ("Darwin", v4)]
    /\ csv_column (downloaded out) "NHS per Night (£)" = [Some (Number v1)]
    /\ csv_column (downloaded out) "Darwin per Night (£)" = [Some (Number v2)]
    /\ csv_column (downloaded out) "NHS Total (£)" = [Some (Number v3)]
    /\ csv_column (downloaded out) "Darwin Total (£)" = [Some (Number v4)].
Proof.
  intros Hv. destruct (calculations_valid i Hv) as (r & d & Hc & _).
  rewrite script_run, (body_ok _ _ Hc). cbn [fst snd].
  generalize (pipeline_spec i r d). intros c.
  exists (nhs_night (cost c)), (Float (darwin_cost_input i)),
         (total_nhs (cost c)), (total_darwin (cost c)).
  exact (charts_of_export i c (occupancy_rate i <? 70)).
Qed.

Lemma charts_show_export_witness :
  exists v1 v2 v3 v4 : num,
    let out := snd (script loss_inputs []) in
    chart_bars "£ per Bed per Night" out = Some [("NHS", v1); ("Darwin", v2)]
    /\ chart_bars "Total Cost (£)" out = Some [("NHS", v3); ("Darwin", v4)]
    /\ csv_column (downloaded out) "NHS per Night (£)" = [Some (Number v1)]
    /\ csv_column (downloaded out) "Darwin per Night (£)" = [Some (Number v2)]
    /\ csv_column (downloaded out) "NHS Total (£)" = [Some (Number v3)]
    /\ csv_column (downloaded out) "Darwin Total (£)" = [Some (Number v4)].
Proof. exact (charts_show_export loss_inputs eq_refl). Defined.

(** ** More binary64 facts *)

Lemma Zdigits2_nonneg_le (m K : Z) : 0 <= m < 2 ^ K -> 0 <= K -> 0 <= Zdigits2 m <= K.
Proof.
  intros [Hm HK] HK0. destruct m as [|p|p]; try lia.
  - cbn. lia.
  - pose proof (Zdigits2_le (Zpos p) K ltac:(lia) HK0). lia.
Qed.

Lemma Zdigits2_upper (m : Z) : 0 <= m -> m < 2 ^ Zdigits2 m.
Proof.
  intros Hm. destruct m as [|p|p]; try lia.
  - reflexivity.
  - cbn [Zdigits2]. apply digits2_pos_bounds.
Qed.

(** Shifting a mantissa into the format: what is left has at most 53 bits,
    and the exponent is at least the smallest one and at most the exponent
    that puts the first bit of the mantissa in place. *)
Lemma shr_fexp_finite (m e : Z) (l : location) :
  0 <= m ->
  0 <= shr_m (fst (shr_fexp prec emax m e l)) < 2 ^ 53
  /\ -1074 <= snd (shr_fexp prec emax m e l)
     <= Z.max (e + Z.max 0 (Zdigits2 m - 53)) (-1074).
Proof.
  intros Hm.
  pose proof (Zdigits2_upper m Hm) as Hd.
  assert (Hd0 : 0 <= Zdigits2 m) by (destruct m; cbn; lia).
  unfold shr_fexp, shr, fexp, SpecFloat.emin, prec, emax.
  destruct (Z.max (Zdigits2 m + e - 53) (3 - 1024 - 53) - e) as [|q|q] eqn:Hn;
    cbn [fst snd]; rewrite ?shr_record_of_loc_m.
  - split; [split; [lia|]|lia].
    apply Z.lt_le_trans with (2 ^ Zdigits2 m); [exact Hd|].
    apply Z.pow_le_mono_r; lia.
  - rewrite iter_pos_shr_m by (rewrite shr_record_of_loc_m; lia).
    rewrite shr_record_of_loc_m.
    pose proof (pow2_pos (Zpos q) ltac:(lia)) as Hp.
    split; [split|lia].
    + apply Z.div_pos; lia.
    + apply Z.div_lt_upper_bound; [exact Hp|].
      apply Z.lt_le_trans with (2 ^ Zdigits2 m); [exact Hd|].
      rewrite <- Z.pow_add_r by lia. apply Z.pow_le_mono_r; lia.
  - split; [split; [lia|]|lia].
    apply Z.lt_le_trans with (2 ^ Zdigits2 m); [exact Hd|].
    apply Z.pow_le_mono_r; lia.
Qed.

(** Rounding a mantissa of at most [K] bits never gives NaN, and gives a
    finite number as long as the exponent stays below the largest one. *)
Lemma binary_round_aux_finite (s : bool) (mx ex : Z) (lx : location) (K : Z) :
  0 <= mx < 2 ^ K -> 0 <= K ->
  Z.max (ex + Z.max 0 (K - 53)) (-1074) + 1 <= 971 ->
  binary_round_aux prec emax s mx ex lx = S754_zero s
  \/ exists (m : positive) (e : Z),
       binary_round_aux prec emax s mx ex lx = S754_finite s m e
       /\ e <= Z.max (ex + Z.max 0 (K - 53)) (-1074) + 1.
Proof.
  intros Hm HK Hhi. unfold binary_round_aux.
  pose proof (shr_fexp_finite mx ex lx ltac:(lia)) as H1.
  pose proof (Zdigits2_nonneg_le mx K Hm HK) as Hd.
  destruct (shr_fexp prec emax mx ex lx) as [mrs' e']. cbn [fst snd] in H1.
  pose proof (round_nearest_even_bounds (shr_m mrs') (loc_of_shr_record mrs')) as Hr.
  set (m2 := round_nearest_even (shr_m mrs') (loc_of_shr_record mrs')) in *.
  assert (Hm2 : 0 <= m2 < 2 ^ 54).
  { change (2 ^ 54) with (2 * 2 ^ 53). lia. }
  pose proof (shr_fexp_finite m2 e' loc_Exact ltac:(lia)) as H2.
  pose proof (Zdigits2_nonneg_le m2 54 Hm2 ltac:(lia)) as Hd2.
  destruct (shr_fexp prec emax m2 e' loc_Exact) as [mrs'' e'']. cbn [fst snd] in H2.
  destruct (shr_m mrs'') as [|m|m]; try lia.
  - left. reflexivity.
  - right. exists m, e''.
    replace (e'' <=? emax - prec) with true
      by (symmetry; apply Z.leb_le; unfold emax, prec; lia).
    split; [reflexivity | lia].
Qed.

Lemma finite_below_inv (hi : Z) (x : float) :
  finite_below hi x = true ->
  (exists s, Prim2SF x = S754_zero s)
  \/ exists s (m : positive) (e : Z),
       Prim2SF x = S754_finite s m e /\ e <= hi /\ Zpos m < 2 ^ 53.
Proof.
  unfold finite_below. intros H. pose proof (Prim2SF_valid x) as Hv.
  destruct (Prim2SF x) as [s|s| |s m e]; try discriminate H.
  - left. exists s. reflexivity.
  - right. exists s, m, e. apply Z.leb_le in H.
    split; [reflexivity|]. split; [exact H|]. exact (valid_mantissa _ _ _ Hv).
Qed.

Lemma pos_finite_below (lo hi : Z) (x : float) :
  pos_finite lo hi x = true -> finite_below hi x = true.
Proof.
  intros H. destruct (pos_finite_inv _ _ _ H) as (m & e & E & He & _).
  unfold finite_below. rewrite E. apply Z.leb_le. lia.
Qed.

(** The product of two finite floats is finite when the exponents leave
    room. *)
Lemma mul_finite (hx hy : Z) (x y : float) :
  finite_below hx x = true -> finite_below hy y = true ->
  Z.max (hx + hy + 53) (-1074) + 1 <= 971 ->
  finite_below (Z.max (hx + hy + 53) (-1074) + 1) (x * y) = true.
Proof.
  intros Hx Hy Hhi. unfold finite_below at 1. rewrite mul_spec.
  destruct (finite_below_inv _ _ Hx) as [[sx Ex]|(sx & mx & ex & Ex & Hex & Hmx)];
    destruct (finite_below_inv _ _ Hy) as [[sy Ey]|(sy & my & ey & Ey & Hey & Hmy)];
    rewrite Ex, Ey; unfold SF64mul, SFmul; try reflexivity.
  assert (Hm : 0 <= Zpos (mx * my) < 2 ^ 106).
  { split; [lia|]. rewrite Pos2Z.inj_mul. change (2 ^ 106) with (2 ^ 53 * 2 ^ 53).
    apply Z.mul_lt_mono_nonneg; lia. }
  destruct (binary_round_aux_finite (xorb sx sy) (Zpos (mx * my)) (ex + ey) loc_Exact 106 Hm
              ltac:(lia) ltac:(lia)) as [->|(m & e & -> & He)].
  - reflexivity.
  - apply Z.leb_le. lia.
Qed.

Lemma iter_xO (m d : positive) : Zpos (Pos.iter xO m d) = Zpos m * 2 ^ Zpos d.
Proof.
  induction d as [|d IH] using Pos.peano_ind.
  - cbn [Pos.iter]. change (2 ^ 1) with 2. change (Zpos m~0) with (2 * Zpos m). ring.
  - rewrite Pos.iter_succ, Pos2Z.inj_succ, Z.pow_succ_r by lia.
    change (Zpos (Pos.iter xO m d)~0) with (2 * Zpos (Pos.iter xO m d)).
    rewrite IH. ring.
Qed.

(** Aligning a mantissa on a smaller exponent multiplies it by the power of
    two in between. *)
Lemma shl_align_spec (m : positive) (e e' : Z) :
  e' <= e ->
  Zpos (fst (shl_align m e e')) = Zpos m * 2 ^ (e - e')
  /\ snd (shl_align m e e') = e'.
Proof.
  intros He. unfold shl_align.
  destruct (e' - e) as [|d|d] eqn:Hd; cbn [fst snd]; try lia.
  - replace (e - e') with 0 by lia. split; lia.
  - rewrite iter_xO. replace (e - e') with (Zpos d) by lia. split; reflexivity.
Qed.

Lemma shl_align_id (m : positive) (e e' : Z) :
  e <= e' -> shl_align m e e' = (m, e).
Proof.
  intros He. unfold shl_align. destruct (e' - e) as [|d|d] eqn:Hd; try reflexivity. lia.
Qed.

Lemma binary_round_finite (s : bool) (mx : positive) (ex K : Z) :
  Zpos mx < 2 ^ K -> 0 <= K ->
  Z.max (ex + Z.max 0 (K - 53)) (-1074) + 1 <= 971 ->
  binary_round prec emax s mx ex = S754_zero s
  \/ exists (m : positive) (e : Z),
       binary_round prec emax s mx ex = S754_finite s m e
       /\ e <= Z.max (ex + Z.max 0 (K - 53)) (-1074) + 1.
Proof.
  intros Hm HK Hhi. unfold binary_round.
  pose proof (Zdigits2_le (Zpos mx) K ltac:(lia) HK) as Hd. cbn [Zdigits2] in Hd.
  set (d := Zpos (digits2_pos mx)) in *.
  set (f := fexp prec emax (d + ex)).
  assert (Hf : f = Z.max (d + ex - 53) (-1074)) by reflexivity.
  destruct (Z.le_gt_cases ex f) as [Hle|Hgt].
  - rewrite (shl_align_id mx ex f Hle).
    exact (binary_round_aux_finite s (Zpos mx) ex loc_Exact K ltac:(lia) HK Hhi).
  - destruct (shl_align_spec mx ex f ltac:(lia)) as [Hmz Hez].
    destruct (shl_align mx ex f) as [mz ez]. cbn [fst snd] in Hmz, Hez. subst ez.
    assert (Hmz' : 0 <= Zpos mz < 2 ^ (d + (ex - f))).
    { split; [lia|]. rewrite Hmz, Z.pow_add_r by lia.
      apply Z.mul_lt_mono_pos_r; [apply pow2_pos; lia|].
      apply digits2_pos_bounds. }
    destruct (binary_round_aux_finite s (Zpos mz) f loc_Exact (d + (ex - f)) Hmz'
                ltac:(lia) ltac:(lia)) as [->|(m & e & -> & He)].
    + left. reflexivity.
    + right. exists m, e. split; [reflexivity | lia].
Qed.

Lemma binary_normalize_finite (m e K : Z) :
  Z.abs m < 2 ^ K -> 0 <= K ->
  Z.max (e + Z.max 0 (K - 53)) (-1074) + 1 <= 971 ->
  match binary_normalize prec emax m e false with
  | S754_zero _ => True
  | S754_finite _ _ e' => e' <= Z.max (e + Z.max 0 (K - 53)) (-1074) + 1
  | _ => False
  end.
Proof.
  intros Hm HK Hhi. unfold binary_normalize. destruct m as [|p|p].
  - exact I.
  - destruct (binary_round_finite false p e K ltac:(lia) HK Hhi) as [->|(m & e' & -> & He)];
      [exact I | exact He].
  - destruct (binary_round_finite true p e K ltac:(lia) HK Hhi) as [->|(m & e' & -> & He)];
      [exact I | exact He].
Qed.

(** The difference of two finite floats is finite when their exponents leave
    room. *)
Lemma sub_finite (hx hy : Z) (x y : float) :
  finite_below hx x = true -> finite_below hy y = true ->
  Z.max (Z.max hx hy + 1) (-1074) + 1 <= 971 ->
  finite_below (Z.max (Z.max hx hy + 1) (-1074) + 1) (x - y) = true.
Proof.
  intros Hx Hy Hhi. unfold finite_below at 1. rewrite sub_spec.
  destruct (finite_below_inv _ _ Hx) as [[sx Ex]|(sx & mx & ex & Ex & Hex & Hmx)];
    destruct (finite_below_inv _ _ Hy) as [[sy Ey]|(sy & my & ey & Ey & Hey & Hmy)];
    rewrite Ex, Ey; unfold SF64sub, SFsub.
  - destruct sx, sy; reflexivity.
  - apply Z.leb_le. lia.
  - apply Z.leb_le. lia.
  - set (ez := Z.min ex ey).
    destruct (shl_align_spec mx ex ez ltac:(lia)) as [Hax _].
    destruct (shl_align_spec my ey ez ltac:(lia)) as [Hay _].
    set (ax := Zpos (fst (shl_align mx ex ez))) in *.
    set (ay := Zpos (fst (shl_align my ey ez))) in *.
    set (M := Z.max ex ey).
    assert (Hbx : 0 < ax < 2 ^ (53 + (M - ez))).
    { rewrite Hax, Z.pow_add_r by lia. split; [pose proof (pow2_pos (ex - ez)); nia|].
      apply Z.lt_le_trans with (2 ^ 53 * 2 ^ (ex - ez)).
      - apply Z.mul_lt_mono_pos_r; [apply pow2_pos; lia | exact Hmx].
      - apply Z.mul_le_mono_nonneg_l; [lia|]. apply Z.pow_le_mono_r; lia. }
    assert (Hby : 0 < ay < 2 ^ (53 + (M - ez))).
    { rewrite Hay, Z.pow_add_r by lia. split; [pose proof (pow2_pos (ey - ez)); nia|].
      apply Z.lt_le_trans with (2 ^ 53 * 2 ^ (ey - ez)).
      - apply Z.mul_lt_mono_pos_r; [apply pow2_pos; lia | exact Hmy].
      - apply Z.mul_le_mono_nonneg_l; [lia|]. apply Z.pow_le_mono_r; lia. }
    assert (Hc : Z.abs (cond_Zopp sx ax - cond_Zopp sy ay) < 2 ^ (54 + (M - ez))).
    { replace (54 + (M - ez)) with (Z.succ (53 + (M - ez))) by lia.
      rewrite Z.pow_succ_r by lia.
      destruct sx, sy; cbn [cond_Zopp]; hide_pow; lia. }
    pose proof (binary_normalize_finite (cond_Zopp sx ax - cond_Zopp sy ay) ez
                  (54 + (M - ez)) Hc ltac:(lia) ltac:(lia)) as Hn.
    destruct (binary_normalize prec emax (cond_Zopp sx ax - cond_Zopp sy ay) ez false)
      as [s|s| |s m e]; try contradiction; [reflexivity|].
    apply Z.leb_le. lia.
Qed.

(** The quotient of a finite float by a positive finite one is finite when
    the exponents leave room. *)
Lemma div_finite (hx ly hy : Z) (x y : float) :
  finite_below hx x = true -> pos_finite ly hy y = true ->
  Z.max (hx - ly) (-1074) + 1 <= 971 ->
  finite_below (Z.max (hx - ly) (-1074) + 1) (x / y) = true.
Proof.
  intros Hx Hy Hhi. unfold finite_below at 1. rewrite div_spec.
  destruct (pos_finite_inv _ _ _ Hy) as (my & ey & Ey & Hey & Hmy).
  destruct (finite_below_inv _ _ Hx) as [[sx Ex]|(sx & mx & ex & Ex & Hex & Hmx)];
    rewrite Ex, Ey; unfold SF64div, SFdiv; [reflexivity|].
  unfold SFdiv_core_binary.
  pose proof (Zdigits2_le (Zpos mx) 53 ltac:(lia) ltac:(lia)) as Hd1.
  pose proof (Zdigits2_upper (Zpos mx) ltac:(lia)) as Hu1.
  set (d1 := Zdigits2 (Zpos mx)) in *.
  set (d2 := Zdigits2 (Zpos my)) in *.
  set (e' := Z.min (fexp prec emax (d1 + ex - (d2 + ey))) (ex - ey)).
  assert (He' : e' <= ex - ey /\ d1 + ex - (d2 + ey) - 53 <= e' \/ e' = ex - ey).
  { unfold e', fexp, SpecFloat.emin, prec, emax. lia. }
  assert (He'' : e' <= ex - ey) by (unfold e'; lia).
  set (sh := ex - ey - e') in *.
  assert (Hsh : 0 <= sh) by (unfold sh; lia).
  set (m' := match sh with
             | 0 => Zpos mx
             | Zpos _ => Z.shiftl (Zpos mx) sh
             | Zneg _ => 0
             end).
  assert (Hm' : 0 <= m' < 2 ^ (d1 + sh)).
  { unfold m'. destruct sh as [|p|p] eqn:Hs; try lia.
    - rewrite Z.add_0_r. lia.
    - rewrite Z.shiftl_mul_pow2, Z.pow_add_r by lia.
      pose proof (pow2_pos (Zpos p) ltac:(lia)). split; [nia|].
      apply Z.mul_lt_mono_pos_r; assumption. }
  pose proof (Z_div_mod m' (Zpos my) ltac:(lia)) as Hdm.
  destruct (Z.div_eucl m' (Zpos my)) as [q r]. destruct Hdm as [Hq Hr].
  assert (Hqb : 0 <= q < 2 ^ (d1 + sh)) by nia.
  destruct (binary_round_aux_finite (xorb sx false) q e' (new_location (Zpos my) r)
              (d1 + sh) Hqb ltac:(lia) ltac:(unfold sh; lia)) as [->|(m & e & -> & He)].
  - reflexivity.
  - apply Z.leb_le. unfold sh in He. lia.
Qed.

(** A float the comparisons place between 50 and 200 is finite, positive and
    of the three exponents in that range. *)
Lemma between_50_200 (x : float) :
  PrimFloat.leb 50 x && PrimFloat.leb x 200 = true ->
  pos_finite (-47) (-45) x = true.
Proof.
  intros H. apply andb_prop in H. destruct H as [Hlo Hhi].
  rewrite leb_spec in Hlo, Hhi. unfold pos_finite.
  let v := eval vm_compute in (Prim2SF 50) in change (Prim2SF 50) with v in Hlo.
  let v := eval vm_compute in (Prim2SF 200) in change (Prim2SF 200) with v in Hhi.
  destruct (Prim2SF x) as [s|s| |s m e]; try discriminate Hlo.
  - destruct s; discriminate.
  - destruct s; [discriminate Hlo|].
    unfold SFleb, SFcompare in Hlo, Hhi.
    destruct (Z.compare_spec (-47) e); destruct (Z.compare_spec e (-45));
      try discriminate Hlo; try discriminate Hhi;
      apply andb_true_intro; split; apply Z.leb_le; lia.
Qed.

Lemma finite_below_is_finite (hi : Z) (x : float) :
  finite_below hi x = true -> is_finite (Float x) = true.
Proof.
  unfold finite_below, is_finite.
  destruct (Prim2SF x); first [reflexivity | discriminate].
Qed.

(** A finite sum has finite terms. *)
Lemma add_finite_l (lo hi : Z) (x y : float) :
  pos_finite lo hi (x + y) = true -> is_finite (Float x) = true.
Proof.
  unfold pos_finite, is_finite. rewrite add_spec. unfold SF64add, SFadd.
  destruct (Prim2SF x) as [sx|sx| |sx mx ex]; try reflexivity;
    destruct (Prim2SF y) as [sy|sy| |sy my ey]; try discriminate;
    destruct sx, sy; discriminate.
Qed.

(** ** The numbers of the result are finite *)

Lemma total_darwin_pos_finite (i : inputs) (r : ward_row) (d : Z) :
  valid_inputs i = true -> In (timeframe i, d) timeframe_days_dict ->
  num_pos_finite (-167) 381 (total_darwin (cost (pipeline_spec i r d))) = true.
Proof.
  intros Hv Hd.
  destruct (valid_inputs_ranges i Hv) as (Hb & Hn & Ho & _).
  assert (Hdw : pos_finite (-47) (-45) (darwin_cost_input i) = true).
  { apply between_50_200. unfold valid_inputs in Hv.
    repeat (apply andb_prop in Hv; let H' := fresh "H" in destruct Hv as [Hv H']).
    assumption. }
  pose proof (effective_nights_pos_finite i r d Hd Hn Ho) as Hy.
  pose proof (beds_ok (num_beds i) Hb) as Hbeds.
  change (total_darwin (cost (pipeline_spec i r d)))
    with (mul (mul (Float (darwin_cost_input i)) (Int (num_beds i)))
              (effective_nights (pipeline_spec i r d))).
  rewrite !mul_float_l. cbn [num_pos_finite to_float].
  pose proof (mul_pos_finite _ _ _ _ _ _ Hdw Hbeds ltac:(lia) ltac:(lia)) as H1.
  exact (mul_pos_finite _ _ _ _ _ _ H1 Hy ltac:(lia) ltac:(lia)).
Qed.

(** X11. For every input set within the widgets' ranges the total for the
    alternative is a float strictly above zero, like the NHS total. *)
Theorem total_darwin_positive (i : inputs) :
  valid_inputs i = true ->
  exists c : calc,
    calculations i = Ok c
    /\ ltb (Int 0) (total_darwin (cost c)) = true.
Proof.
  intros Hv. destruct (calculations_valid i Hv) as (r & d & Hc & _ & _ & Hd).
  exists (pipeline_spec i r d). split; [exact Hc|].
  pose proof (total_darwin_pos_finite i r d Hv Hd) as Ht.
  destruct (num_pos_finite_inv _ _ _ Ht) as (t & -> & Hpos).
  exact (proj1 (pos_finite_gt_zero _ _ _ Hpos)).
Qed.

Lemma total_darwin_positive_witness :
  exists c : calc,
    calculations loss_inputs = Ok c
    /\ ltb (Int 0) (total_darwin (cost c)) = true.
Proof. exact (total_darwin_positive loss_inputs eq_refl). Defined.

Lemma pipeline_finite (i : inputs) (r : ward_row) (d : Z) :
  valid_inputs i = true -> In r df -> In (timeframe i, d) timeframe_days_dict ->
  let c := pipeline_spec i r d in
  is_finite (effective_nights c) = true
  /\ is_finite (capital_cost c) = true
  /\ is_finite (nhs_night (cost c)) = true
  /\ is_finite (total_nhs (cost c)) = true
  /\ is_finite (total_darwin (cost c)) = true
  /\ is_finite (savings (cost c)) = true
  /\ is_finite (percent_savings (cost c)) = true.
Proof.
  intros Hv Hin Hd c.
  destruct (valid_inputs_ranges i Hv) as (Hb & Hn & Ho & Hs).
  pose proof (effective_nights_pos_finite i r d Hd Hn Ho) as Hnights.
  pose proof (nhs_night_pos_finite i r d Hin Hs) as Hnight.
  pose proof (total_nhs_pos_finite i r d Hv Hin Hd) as Htn.
  pose proof (total_darwin_pos_finite i r d Hv Hd) as Htd.
  fold c in Hnights, Hnight, Htn, Htd.
  split.
  { destruct (effective_nights c) as [z|x]; [reflexivity|].
    cbn [to_float] in Hnights.
    exact (finite_below_is_finite _ _ (pos_finite_below _ _ _ Hnights)). }
  split.
  { subst c. cbn [pipeline_spec capital_cost cost cost_result_spec nhs_night] in *.
    destruct (String.eqb (timeframe i) "60 Years").
    - destruct (nhs_maintenance_cost r) as [z|m]; cbn [add to_float num_pos_finite] in Hnight;
        exact (add_finite_l _ _ _ _ Hnight).
    - destruct (nhs_capital_cost r) as [z|x]; [reflexivity|].
      destruct (nhs_maintenance_cost r) as [z|m]; cbn [add to_float num_pos_finite] in Hnight;
        exact (add_finite_l _ _ _ _ Hnight). }
  destruct (num_pos_finite_inv _ _ _ Hnight) as (x & Ex & Hx).
  destruct (num_pos_finite_inv _ _ _ Htn) as (tn & Etn & Htn').
  destruct (num_pos_finite_inv _ _ _ Htd) as (td & Etd & Htd').
  assert (Hsv : savings (cost c) = Float (tn - td)).
  { change (savings (cost c)) with (sub (total_nhs (cost c)) (total_darwin (cost c))).
    rewrite Etn, Etd. reflexivity. }
  pose proof (sub_finite 426 381 tn td (pos_finite_below _ _ _ Htn')
                (pos_finite_below _ _ _ Htd') ltac:(lia)) as Hsub.
  assert (Hpc : percent_savings (cost c) = Float ((tn - td) / tn * float_of_Z 100)).
  { change (percent_savings (cost c))
      with (if is_zero (total_nhs (cost c)) then Int 0
            else mul (Float (to_float (savings (cost c)) / to_float (total_nhs (cost c))))
                     (Int 100)).
    rewrite Hsv, Etn. cbn [is_zero to_float].
    rewrite (proj2 (pos_finite_gt_zero _ _ _ Htn')). reflexivity. }
  pose proof (div_finite _ _ _ _ _ Hsub Htn' ltac:(lia)) as Hdiv.
  assert (H100 : finite_below (-46) (float_of_Z 100) = true) by (vm_compute; reflexivity).
  pose proof (mul_finite _ _ _ _ Hdiv H100 ltac:(lia)) as Hmul.
  rewrite Ex, Etn, Etd, Hsv, Hpc.
  repeat split;
    eauto using finite_below_is_finite, pos_finite_below.
Qed.

(** X12. For every input set within the widgets' ranges no number of the
    result is an infinity or NaN: the effective nights, the capital cost, the
    NHS cost per night, both totals, the savings and the percentage are all
    finite, and so is every number in the data line of the export. *)
Theorem results_are_finite (i : inputs) :
  valid_inputs i = true ->
  exists c : calc,
    calculations i = Ok c
    /\ is_finite (effective_nights c) = true
    /\ is_finite (capital_cost c) = true
    /\ is_finite (nhs_night (cost c)) = true
    /\ is_finite (total_nhs (cost c)) = true
    /\ is_finite (total_darwin (cost c)) = true
    /\ is_finite (savings (cost c)) = true
    /\ is_finite (percent_savings (cost c)) = true
    /\ forall (line : list cell) (v : num),
         In line (tl (downloaded (snd (script i [])))) ->
         In (Number v) line -> is_finite v = true.
Proof.
  intros Hv. destruct (calculations_valid i Hv) as (r & d & Hc & Hin & _ & Hd).
  exists (pipeline_spec i r d). split; [exact Hc|].
  destruct (pipeline_finite i r d Hv Hin Hd) as (H1 & H2 & H3 & H4 & H5 & H6 & H7).
  repeat (split; [assumption|]).
  assert (Hdw : is_finite (Float (darwin_cost_input i)) = true).
  { assert (Hr : pos_finite (-47) (-45) (darwin_cost_input i) = true).
    { apply between_50_200. unfold valid_inputs in Hv.
      repeat (apply andb_prop in Hv; let H' := fresh "H" in destruct Hv as [Hv H']).
      assumption. }
    exact (finite_below_is_finite _ _ (pos_finite_below _ _ _ Hr)). }
  rewrite script_run, (body_ok _ _ Hc). cbn [fst snd].
  revert H1 H2 H3 H4 H5 H6 H7. generalize (pipeline_spec i r d). intros c H1 H2 H3 H4 H5 H6 H7.
  intros line v Hline Hcell.
  assert (Hl : line = [ Text (selected_ward i); Number (Int (num_beds i));
                        Number (effective_nights c); Number (nhs_night (cost c));
                        Number (Float (darwin_cost_input i)); Number (total_nhs (cost c));
                        Number (total_darwin (cost c)); Number (savings (cost c));
                        Number (percent_savings (cost c)) ]).
  { destruct (occupancy_rate i <? 70);
      cbv [summary_display charts download_report bind page_monad emit] in Hline;
      cbn [fst snd app downloaded tl] in Hline;
      cbn in Hline; destruct Hline as [<-|[]]; reflexivity. }
  subst line. cbn [In] in Hcell.
  repeat (destruct Hcell as [Hcell|Hcell];
          [first [discriminate Hcell | injection Hcell as <-; first [assumption | reflexivity]]|]).
  destruct Hcell.
Qed.

Lemma results_are_finite_witness :
  exists c : calc,
    calculations loss_inputs = Ok c
    /\ is_finite (effective_nights c) = true
    /\ is_finite (capital_cost c) = true
    /\ is_finite (nhs_night (cost c)) = true
    /\ is_finite (total_nhs (cost c)) = true
    /\ is_finite (total_darwin (cost c)) = true
    /\ is_finite (savings (cost c)) = true
    /\ is_finite (percent_savings (cost c)) = true
    /\ forall (line : list cell) (v : num),
         In line (tl (downloaded (snd (script loss_inputs [])))) ->
         In (Number v) line -> is_finite v = true.
Proof. exact (results_are_finite loss_inputs eq_refl). Defined.

(** ** What makes the script raise *)


